(** * A to-do list server: the task store, the tool dispatcher and the
      widget renderer of [main.py], embedded in Rocq.

    Python values are modelled as the interpreter has them: a [str] is a
    sequence of Unicode code points, the result of [json.load] is a tree of
    [None], [bool], [int], [float], [str], [list] and [dict], an exception is
    a value of [exn] threaded through a small error monad, and the data file
    is explicit state passed through every handler. *)

From Stdlib Require Import String Ascii ZArith NArith SpecFloat DecimalString.
From stdpp Require Import base tactics option numbers list.

Local Open Scope N_scope.
Local Set Warnings "-register-all".

(** ** Python [str] *)

(** A Python string: its code points. *)
Definition pystr : Type := list N.

(** An ASCII literal of the source as a Python string. *)
Definition py (s : string) : pystr :=
  List.map N_of_ascii (list_ascii_of_string s).

(** The quotation mark, spelled by its code point. *)
Definition dquote : pystr := [34].

(** [quoted s] is the literal [s] between quotation marks. *)
Definition quoted (s : string) : pystr := dquote ++ py s ++ dquote.

(** [s1 == s2] on strings. *)
Fixpoint str_eqb (a b : pystr) : bool :=
  match a, b with
  | [], [] => true
  | x :: a', y :: b' => (x =? y) && str_eqb a' b'
  | _, _ => false
  end.

(** [str.isspace] on one code point: the table of CPython's
    [_PyUnicode_IsWhitespace], which [str.strip()] uses. *)
Definition is_space (c : N) : bool :=
  ((9 <=? c) && (c <=? 13)) || ((28 <=? c) && (c <=? 32)) ||
  (c =? 133) || (c =? 160) || (c =? 5760) ||
  ((8192 <=? c) && (c <=? 8202)) || (c =? 8232) || (c =? 8233) ||
  (c =? 8239) || (c =? 8287) || (c =? 12288).

(** [s.lstrip()], [s.rstrip()] and [s.strip()] for a set of characters given
    as a predicate. *)
Fixpoint lstrip_by (p : N → bool) (s : pystr) : pystr :=
  match s with
  | [] => []
  | c :: s' => if p c then lstrip_by p s' else s
  end.

Definition rstrip_by (p : N → bool) (s : pystr) : pystr :=
  rev (lstrip_by p (rev s)).

Definition strip_by (p : N → bool) (s : pystr) : pystr :=
  rstrip_by p (lstrip_by p s).

(** [s.strip()]: whitespace removed on both sides. *)
Definition strip (s : pystr) : pystr := strip_by is_space s.

(** [s.rstrip(chars)]. *)
Definition rstrip (chars s : pystr) : pystr :=
  rstrip_by (λ c, existsb (N.eqb c) chars) s.

(** [s.startswith(p)]. *)
Fixpoint starts_with (p s : pystr) : bool :=
  match p, s with
  | [], _ => true
  | x :: p', y :: s' => (x =? y) && starts_with p' s'
  | _ :: _, [] => false
  end.

(** [p in s]: [p] occurs in [s] as a substring. *)
Fixpoint contains (p s : pystr) : bool :=
  starts_with p s ||
  match s with
  | [] => false
  | _ :: s' => contains p s'
  end.

(** [s.replace(old, new)] for a non-empty [old]: the occurrences of [old]
    are found from the left and do not overlap; [skip] counts the characters
    of a matched occurrence that are still to be passed over. *)
Fixpoint replace_from (old new : pystr) (skip : nat) (s : pystr) : pystr :=
  match s with
  | [] => []
  | c :: s' =>
      match skip with
      | S k => replace_from old new k s'
      | O =>
          if starts_with old s
          then new ++ replace_from old new (length old - 1) s'
          else c :: replace_from old new 0 s'
      end
  end.

(** [s.replace(old, new)]; with an empty [old], Python puts [new] before
    every character and at the end. *)
Definition str_replace (old new s : pystr) : pystr :=
  match old with
  | [] => new ++ flat_map (λ c, c :: new) s
  | _ :: _ => replace_from old new 0 s
  end.

(** [sep.join(parts)]. *)
Fixpoint join (sep : pystr) (parts : list pystr) : pystr :=
  match parts with
  | [] => []
  | [p] => p
  | p :: ps => p ++ sep ++ join sep ps
  end.


(** ** Exceptions and the error monad *)

(** The exception classes the modelled code can raise. *)
Inductive exn : Type :=
  | FileNotFoundError
  | JSONDecodeError
  | AttributeError
  | TypeError
  | ValidationError
  | KeyError
  | ValueError
  | IndexError
  | RecursionError.

(** A computation that returns a value or raises. *)
Inductive result (A : Type) : Type :=
  | OK (a : A)
  | Raise (e : exn).

Arguments OK {A} a.
Arguments Raise {A} e.

Definition is_OK {A : Type} (r : result A) : bool :=
  match r with
  | OK _ => true
  | Raise _ => false
  end.

Definition bindR {A B : Type} (m : result A) (k : A → result B) : result B :=
  match m with
  | OK a => k a
  | Raise e => Raise e
  end.

Notation "'let?' x := m 'in' k" := (bindR m (λ x, k))
  (at level 10, x name, m at level 100, k at level 200).

(** A list comprehension [[f(x) for x in xs]]: the first exception ends it. *)
Fixpoint comprehension {A B : Type} (f : A → result B) (xs : list A)
  : result (list B) :=
  match xs with
  | [] => OK []
  | x :: xs' => let? y := f x in let? ys := comprehension f xs' in OK (y :: ys)
  end.

(** ** Values of [json.load] *)

Inductive json : Type :=
  | JNull
  | JBool (b : bool)
  | JInt (n : Z)
  | JFloat (f : spec_float)
  | JStr (s : pystr)
  | JArr (items : list json)
  | JObj (members : list (pystr * json)).

(** A [dict] with string keys is the list of its items in insertion order;
    a key is looked up from the front. *)
Definition dict : Type := list (pystr * json).

(** [d[k]] when present. *)
Fixpoint dict_lookup (k : pystr) (d : dict) : option json :=
  match d with
  | [] => None
  | (k', v) :: d' => if str_eqb k' k then Some v else dict_lookup k d'
  end.

(** [d.get(k, default)]. *)
Definition dict_get (k : pystr) (default : json) (d : dict) : json :=
  match dict_lookup k d with Some v => v | None => default end.

(** Truth value of a value in a condition ([if v], [not v]). *)
Definition truthy (v : json) : bool :=
  match v with
  | JNull => false
  | JBool b => b
  | JInt n => negb (n =? 0)%Z
  | JFloat (S754_zero _) => false
  | JFloat _ => true
  | JStr s => negb (str_eqb s [])
  | JArr items => match items with [] => false | _ :: _ => true end
  | JObj members => match members with [] => false | _ :: _ => true end
  end.

(** [for x in v]: the items of a list, the characters of a string, the keys
    of a dict; the other values are not iterable. *)
Definition iterate (v : json) : result (list json) :=
  match v with
  | JArr items => OK items
  | JStr s => OK (List.map (λ c, JStr [c]) s)
  | JObj members => OK (List.map (λ kv, JStr kv.1) members)
  | _ => Raise TypeError
  end.

(** ** [json.dumps] with its defaults ([ensure_ascii=True], separators
    [", "] and [": "]) *)

Definition hex_digit (d : N) : N := if d <? 10 then 48 + d else 87 + d.

(** [format(n, "04x")] for [n < 0x10000]. *)
Definition hex4 (n : N) : pystr :=
  [hex_digit (n / 4096 mod 16); hex_digit (n / 256 mod 16);
   hex_digit (n / 16 mod 16); hex_digit (n mod 16)].

Definition unicode_escape (n : N) : pystr := py "\u" ++ hex4 n.

(** One character of a string literal: the quotation mark, the backslash
    and everything outside [' '..'~'] are escaped, characters beyond the
    basic plane as a surrogate pair. *)
Definition escape_char (c : N) : pystr :=
  if c =? 34 then py "\" ++ dquote
  else if c =? 92 then py "\\"
  else if c =? 10 then py "\n"
  else if c =? 13 then py "\r"
  else if c =? 9 then py "\t"
  else if c =? 12 then py "\f"
  else if c =? 8 then py "\b"
  else if (32 <=? c) && (c <=? 126) then [c]
  else if c <? 65536 then unicode_escape c
  else
    let n := c - 65536 in
    unicode_escape (N.lor 55296 (N.land (N.shiftr n 10) 1023)) ++
    unicode_escape (N.lor 56320 (N.land n 1023)).

Definition dumps_str (s : pystr) : pystr :=
  dquote ++ flat_map escape_char s ++ dquote.

Definition dumps_int (n : Z) : pystr :=
  py (NilZero.string_of_int (Z.to_int n)).

(** ** The Task model *)

(** [class Task(BaseModel)]. The attribute [done] holds whatever was last
    assigned to it: the model does not validate on assignment. *)
Module Task.
Record t : Type := mk {
  id : pystr;
  text : pystr;
  done : json;
  created_at : pystr;
  due_date : option pystr;
}.
End Task.

(** [class TaskList(BaseModel)]: its one field, [tasks]. *)
Abbreviation TaskList := (list Task.t).

(** [task.done = value]. *)
Definition set_done (value : json) (task : Task.t) : Task.t :=
  Task.mk (Task.id task) (Task.text task) value
          (Task.created_at task) (Task.due_date task).

(** [task.model_dump()]: the fields in declaration order. *)
Definition model_dump (task : Task.t) : json :=
  JObj [(py "id", JStr (Task.id task));
        (py "text", JStr (Task.text task));
        (py "done", Task.done task);
        (py "created_at", JStr (Task.created_at task));
        (py "due_date",
         match Task.due_date task with Some s => JStr s | None => JNull end)].

(** [{"tasks": [t.model_dump() for t in tasks.tasks]}]. *)
Definition tasks_data_of (tasks : TaskList) : json :=
  JObj [(py "tasks", JArr (List.map model_dump tasks))].

(** ** The data file *)

(** What [DATA_FILE] holds: nothing (no such file), bytes that [json.load]
    rejects, or a JSON document, kept as the value [json.load] returns. *)
Inductive disk : Type :=
  | NoFile
  | Garbled
  | Doc (raw : json).

(** The module's start-up code: the file is created with an empty task list
    when it does not exist. *)
Definition init_store (d : disk) : disk :=
  match d with
  | NoFile => Doc (JObj [(py "tasks", JArr [])])
  | _ => d
  end.

(** [open(DATA_FILE); json.load(f)]. *)
Definition load_file (d : disk) : result json :=
  match d with
  | NoFile => Raise FileNotFoundError
  | Garbled => Raise JSONDecodeError
  | Doc raw => OK raw
  end.

(** Handlers run on the data file and may raise. A write made before an
    exception stays made. *)
Definition M (A : Type) : Type := disk → result A * disk.

Definition ret {A : Type} (a : A) : M A := λ d, (OK a, d).

Definition raise_from {A : Type} (r : result A) : M A := λ d, (r, d).

Definition bindM {A B : Type} (m : M A) (k : A → M B) : M B :=
  λ d, match m d with
       | (OK a, d') => k a d'
       | (Raise e, d') => (Raise e, d')
       end.

Notation "'let!' x := m 'in' k" := (bindM m (λ x, k))
  (at level 10, x name, m at level 100, k at level 200).

(** [try: body except Exception as e: handler(e)]. *)
Definition try_except {A : Type} (body : M A) (handler : exn → A) : disk → A * disk :=
  λ d, match body d with
       | (OK a, d') => (a, d')
       | (Raise e, d') => (handler e, d')
       end.

(** ** [str.format] with keyword arguments *)

Inductive format_state : Type :=
  | Lit
  | Opened
  | Closed
  | Field (name : pystr).

(** [kwargs[name]]. *)
Fixpoint kwarg (name : pystr) (kwargs : list (pystr * pystr)) : result pystr :=
  match kwargs with
  | [] => Raise KeyError
  | (k, v) :: kwargs' => if str_eqb k name then OK v else kwarg name kwargs'
  end.

(** Characters that start an attribute, an index, a conversion or a format
    specification inside a replacement field, or nest another field. *)
Definition field_syntax (c : N) : bool :=
  (c =? 46) || (c =? 91) || (c =? 33) || (c =? 58) || (c =? 123).

(** [template.format( **kwargs )] read from the left: a doubled brace stands
    for one brace, [{NAME}] is replaced by [kwargs[NAME]]. A replacement
    field is a keyword name here, which is what the widget template has;
    any other field syntax is outside the model and ends in [ValueError]. *)
Fixpoint format_from (kwargs : list (pystr * pystr)) (st : format_state)
    (s : pystr) : result pystr :=
  match s with
  | [] =>
      match st with
      | Lit => OK []
      | _ => Raise ValueError
      end
  | c :: s' =>
      match st with
      | Lit =>
          if c =? 123 then format_from kwargs Opened s'
          else if c =? 125 then format_from kwargs Closed s'
          else let? r := format_from kwargs Lit s' in OK (c :: r)
      | Opened =>
          if c =? 123 then let? r := format_from kwargs Lit s' in OK (c :: r)
          else if c =? 125 then Raise IndexError
          else if field_syntax c then Raise ValueError
          else format_from kwargs (Field [c]) s'
      | Closed =>
          if c =? 125 then let? r := format_from kwargs Lit s' in OK (c :: r)
          else Raise ValueError
      | Field name =>
          if c =? 125 then
            let? v := kwarg name kwargs in
            let? r := format_from kwargs Lit s' in OK (v ++ r)
          else if field_syntax c then Raise ValueError
          else format_from kwargs (Field (name ++ [c])) s'
      end
  end.

Definition str_format (template : pystr) (kwargs : list (pystr * pystr))
  : result pystr :=
  format_from kwargs Lit template.

(** ** Configuration *)

Definition MIME_TYPE : pystr := py "text/html+skybridge".
Definition TEMPLATE_URI : pystr := py "ui://widget/todo-list.html".
Definition TOOL_INVOKING_TEXT : pystr := py "Rendering your latest to-dos...".
Definition TOOL_INVOKED_TEXT : pystr := py "Todo list ready!".
Definition WIDGET_ASSET_ROUTE : pystr := py "/widget-assets".

Definition BASE_WIDGET_META : dict :=
  [(py "openai/outputTemplate", JStr TEMPLATE_URI);
   (py "openai/widgetAccessible", JBool true);
   (py "openai/resultCanProduceWidget", JBool true);
   (py "openai/toolInvocation/invoking", JStr TOOL_INVOKING_TEXT);
   (py "openai/toolInvocation/invoked", JStr TOOL_INVOKED_TEXT)].

(** The lines of [TODO_WIDGET_HTML]; the literal opens with a line break and
    every line ends with one. *)
Definition TODO_WIDGET_HTML_lines : list pystr :=
  [ [];
    py "<!DOCTYPE html>";
    py "<html lang=" ++ quoted "en" ++ py ">";
    py "<head>";
    py "    <meta charset=" ++ quoted "UTF-8" ++ py ">";
    py "    <meta name=" ++ quoted "viewport" ++ py " content="
      ++ quoted "width=device-width, initial-scale=1.0" ++ py ">";
    py "    <link rel=" ++ quoted "stylesheet" ++ py " href="
      ++ quoted "{CSS_PATH}" ++ py ">";
    py "</head>";
    py "<body>";
    py "    <div id=" ++ quoted "todo-root" ++ py " data-widget-version="
      ++ quoted "{WIDGET_VERSION}" ++ py "></div>";
    py "    <script id=" ++ quoted "todo-data" ++ py " type="
      ++ quoted "application/json" ++ py ">{{TASKS_JSON}}</script>";
    py "    <script type=" ++ quoted "module" ++ py ">";
    py "        import {{ renderTodoWidget }} from " ++ quoted "{JS_PATH}"
      ++ py ";";
    py "        const dataEl = document.getElementById(" ++ quoted "todo-data"
      ++ py ");";
    py "        let payload = {{ tasks: [] }};";
    py "        try {{";
    py "            payload = JSON.parse(dataEl.textContent);";
    py "        }} catch (error) {{";
    py "            console.error("
      ++ quoted "todo-widget: failed to parse JSON" ++ py ", error);";
    py "        }}";
    py "        const root = document.getElementById(" ++ quoted "todo-root"
      ++ py ");";
    py "        renderTodoWidget({{ root, tasks: payload.tasks ?? [], postMessageTarget: window.parent }});";
    py "    </script>";
    py "</body>";
    py "</html>" ].

Definition TODO_WIDGET_HTML : pystr :=
  flat_map (λ line, line ++ [10]) TODO_WIDGET_HTML_lines.

(** The placeholder [_render_widget_html] looks for after formatting. *)
Definition TASKS_JSON_placeholder : pystr := py "{{TASKS_JSON}}".

(** ** Responses *)

(** The text of a [TextContent] block. Where the source formats an arbitrary
    object into the text, the object is kept and its [str()] is not spelled
    out. *)
Inductive message : Type :=
  | Text (s : pystr)
  | TaskNotFound (task_id : json)
  | Failure (e : exn).

(** [types.EmbeddedResource] around [types.TextResourceContents]. *)
Record EmbeddedResource : Type := {
  uri : pystr;
  mimeType : pystr;
  html : pystr;
  title : pystr;
}.

(** The [_meta] of a tool result: the widget under ["openai.com/widget"]
    followed by the entries of [BASE_WIDGET_META]. *)
Record ToolMeta : Type := {
  openai_widget : EmbeddedResource;
  base_meta : dict;
}.

(** [types.CallToolResult]. *)
Record CallToolResult : Type := {
  content : list message;
  structuredContent : option json;
  _meta : option ToolMeta;
  isError : bool;
}.

(** [types.ReadResourceResult]: the text of each content block, and the
    ["error"] entry of [_meta] when there is one. *)
Record ReadResourceResult : Type := {
  contents : list pystr;
  error : option pystr;
}.

(** A result with a text block and the error flag, nothing else. *)
Definition error_result (m : message) : CallToolResult :=
  {| content := [m]; structuredContent := None; _meta := None;
     isError := true |}.

(** A result with a text block, the task list and the widget. *)
Definition widget_result (m : message) (tasks_data : json) (meta : ToolMeta)
  : CallToolResult :=
  {| content := [m]; structuredContent := Some tasks_data;
     _meta := Some meta; isError := false |}.

(** What a call draws from outside: [str(uuid.uuid4())] and
    [datetime.utcnow().isoformat()]. *)
Record Env : Type := {
  uuid4 : pystr;
  utcnow_isoformat : pystr;
}.

(** ** The page around the asset version *)

(** [s.split(sep)] for a separator of one character. *)
Fixpoint split_on (sep : N) (s : pystr) : list pystr :=
  match s with
  | [] => [[]]
  | c :: s' =>
      if c =? sep then [] :: split_on sep s'
      else match split_on sep s' with
           | part :: parts => (c :: part) :: parts
           | [] => [[c]]
           end
  end.

(** The formatted template cut at the places of the asset version: the
    template formatted with a version of one character that it does not
    have otherwise, and split there. *)
Definition page_parts : list pystr :=
  split_on 0
    match
      str_format TODO_WIDGET_HTML
        [(py "CSS_PATH",
          rstrip (py "/") WIDGET_ASSET_ROUTE ++ py "/todo.css?v=" ++ [0]);
         (py "JS_PATH",
          rstrip (py "/") WIDGET_ASSET_ROUTE ++ py "/todo.js?v=" ++ [0]);
         (py "WIDGET_VERSION", [0])]
    with
    | OK page => page
    | Raise _ => []
    end.

(** ** Tool and resource listings *)

(** [_tool_meta()]: the entries of [BASE_WIDGET_META], then the
    annotations. *)
Definition _tool_meta : dict :=
  BASE_WIDGET_META ++
  [(py "annotations",
    JObj [(py "destructiveHint", JBool false);
          (py "openWorldHint", JBool false);
          (py "readOnlyHint", JBool true)])].

(** [types.Tool]. *)
Module Tool.
Record t : Type := mk {
  name : pystr;
  title : pystr;
  description : pystr;
  inputSchema : json;
  _meta : dict;
}.
End Tool.

Definition _list_tools : list Tool.t :=
  [ Tool.mk (py "get_tasks") (py "Get Tasks")
      (py "Fetches the current list of to-do items")
      (JObj [(py "type", JStr (py "object"));
             (py "properties", JObj []);
             (py "additionalProperties", JBool false)])
      _tool_meta;
    Tool.mk (py "add_task") (py "Add Task")
      (py "Adds a new to-do task and returns the updated list")
      (JObj [(py "type", JStr (py "object"));
             (py "properties",
              JObj [(py "text",
                     JObj [(py "type", JStr (py "string"));
                           (py "description",
                            JStr (py "The task description"))]);
                    (py "due_date",
                     JObj [(py "type", JStr (py "string"));
                           (py "description",
                            JStr (py "Optional due date in ISO 8601 format"))])]);
             (py "required", JArr [JStr (py "text")]);
             (py "additionalProperties", JBool false)])
      _tool_meta;
    Tool.mk (py "mark_done") (py "Mark Task Done")
      (py "Marks a task as done or undone by its ID")
      (JObj [(py "type", JStr (py "object"));
             (py "properties",
              JObj [(py "task_id",
                     JObj [(py "type", JStr (py "string"));
                           (py "description",
                            JStr (py "The unique ID of the task"))]);
                    (py "done",
                     JObj [(py "type", JStr (py "boolean"));
                           (py "description",
                            JStr (py "Whether to mark as done (true) or undone (false)"))])]);
             (py "required", JArr [JStr (py "task_id")]);
             (py "additionalProperties", JBool false)])
      _tool_meta ].

(** [types.Resource]. *)
Module Resource.
Record t : Type := mk {
  name : pystr;
  title : pystr;
  uri : pystr;
  description : pystr;
  mimeType : pystr;
  _meta : dict;
}.
End Resource.

Definition _list_resources : list Resource.t :=
  [ Resource.mk (py "Todo List Widget") (py "Todo List Widget") TEMPLATE_URI
      (py "Interactive todo list display") MIME_TYPE _tool_meta ].

(** [types.ResourceTemplate]. *)
Module ResourceTemplate.
Record t : Type := mk {
  name : pystr;
  title : pystr;
  uriTemplate : pystr;
  description : pystr;
  mimeType : pystr;
  _meta : dict;
}.
End ResourceTemplate.

Definition _list_resource_templates : list ResourceTemplate.t :=
  [ ResourceTemplate.mk (py "Todo List Widget") (py "Todo List Widget")
      TEMPLATE_URI (py "Interactive todo list display") MIME_TYPE _tool_meta ].

(** The names under ["required"] of an input schema. *)
Definition required_arguments (schema : json) : list pystr :=
  match schema with
  | JObj members =>
      match dict_lookup (py "required") members with
      | Some (JArr names) =>
          flat_map (λ v, match v with JStr s => [s] | _ => [] end) names
      | _ => []
      end
  | _ => []
  end.

(** The hint under ["annotations"] of a listing's [_meta]. *)
Definition annotation (hint : pystr) (meta : dict) : option json :=
  match dict_lookup (py "annotations") meta with
  | Some (JObj hints) => dict_lookup hint hints
  | _ => None
  end.

(** ** Sample data *)

(** The default asset version. *)
Definition default_version : pystr := py "1".

(** A printer for floats where none is printed. *)
Definition plain_float_repr (f : spec_float) : pystr := py "0.0".

(** A [bool] validator that converts nothing. *)
Definition strict_bool (v : json) : option bool := None.

(** An integer of more than 4300 digits somewhere in a value. *)
Fixpoint has_long_int (v : json) : bool :=
  match v with
  | JInt n => (10 ^ 4300 <=? Z.abs n)%Z
  | JArr items => existsb has_long_int items
  | JObj members => existsb (λ member, has_long_int member.2) members
  | _ => false
  end.

(** [json.dump] under the interpreter's default limit on the digits of an
    integer it converts to a string: such an integer raises [ValueError].
    Values nested beyond the recursion limit are not among the samples. *)
Definition int_str_limit (v : json) : option exn :=
  if has_long_int v then Some ValueError else None.

Definition morning : Env :=
  {| uuid4 := py "0b6e3f1c-8a57-4c1e-9d2a-5f4e7c9a1b22";
     utcnow_isoformat := py "2025-03-04T08:15:00.120000" |}.

Definition evening : Env :=
  {| uuid4 := py "c41d7a90-2f6b-4e0d-b8a3-91e5d6f07c34";
     utcnow_isoformat := py "2025-03-04T19:40:12.500000" |}.

Definition milk : Task.t :=
  Task.mk (py "5f0c2a9e-1d34-4b7a-8c55-0e9f3a6b7d10") (py "Buy milk")
    (JBool false) (py "2025-03-03T17:02:45.000000Z") None.

(** A data file as [_write_store] leaves it. *)
Definition one_task : disk := Doc (tasks_data_of [milk]).

(** The same task list in a file that was edited by hand. *)
Definition one_task_edited : disk :=
  Doc (JObj [(py "owner", JStr (py "me"));
             (py "tasks",
              JArr [JObj [(py "text", JStr (py "Buy milk"));
                          (py "id", JStr (Task.id milk));
                          (py "created_at", JStr (Task.created_at milk))]])]).

Definition walk_the_dog : option dict :=
  Some [(py "text", JStr (py "  Walk the dog "))].

Definition blank_text : option dict :=
  Some [(py "text", JStr [32; 9; 160; 8195; 10])].

Definition milk_done : option dict :=
  Some [(py "task_id", JStr (Task.id milk)); (py "done", JBool true)].

Definition milk_undone : option dict :=
  Some [(py "task_id", JStr (Task.id milk)); (py "done", JBool false)].


Definition numeric_text : option dict := Some [(py "text", JInt 5)].

(** An integer of 4301 digits as [done]. *)
Definition milk_huge : option dict :=
  Some [(py "task_id", JStr (Task.id milk)); (py "done", JInt (10 ^ 4300))].

(** A clock and an id source that hands out the id of [milk] again. *)
Definition repeated_id : Env :=
  {| uuid4 := Task.id milk;
     utcnow_isoformat := py "2025-03-05T07:30:00.000000" |}.


Definition with_priority : dict :=
  [(py "text", JStr (py "Walk the dog"))].

Section TodoApp.

(** [WIDGET_ASSET_VERSION], read from the process environment at start-up. *)
Variable WIDGET_ASSET_VERSION : pystr.

(** [float.__repr__] of a finite float, which [json.dumps] prints. *)
Variable float_repr : spec_float → pystr.

(** What pydantic's [bool] validator makes of an input that is not a
    [bool]: it converts some numbers and strings and rejects the rest. *)
Variable lax_bool : json → option bool.

(** What [json.dump] raises on a value of [done] that is not a [bool], when
    it raises: [ValueError] on an integer with more digits than the
    interpreter converts to a string, [RecursionError] on a value nested
    deeper than the interpreter recurses. *)
Variable json_dump_error : json → option exn.

(** *** [json.dumps] *)

Definition dumps_float (f : spec_float) : pystr :=
  match f with
  | S754_nan => py "NaN"
  | S754_infinity false => py "Infinity"
  | S754_infinity true => py "-Infinity"
  | _ => float_repr f
  end.

Fixpoint dumps (v : json) : pystr :=
  match v with
  | JNull => py "null"
  | JBool true => py "true"
  | JBool false => py "false"
  | JInt n => dumps_int n
  | JFloat f => dumps_float f
  | JStr s => dumps_str s
  | JArr items => py "[" ++ join (py ", ") (List.map dumps items) ++ py "]"
  | JObj members =>
      py "{"
      ++ join (py ", ")
           (List.map (λ '(k, x), dumps_str k ++ py ": " ++ dumps x) members)
      ++ py "}"
  end.

(** *** Validation of the Task fields *)

Definition validate_str (v : json) : result pystr :=
  match v with
  | JStr s => OK s
  | _ => Raise ValidationError
  end.

Definition validate_bool (v : json) : result bool :=
  match v with
  | JBool b => OK b
  | _ => match lax_bool v with
         | Some b => OK b
         | None => Raise ValidationError
         end
  end.

Definition validate_optional_str (v : json) : result (option pystr) :=
  match v with
  | JNull => OK None
  | JStr s => OK (Some s)
  | _ => Raise ValidationError
  end.

(** A field without a default. *)
Definition required {A : Type} (validate : json → result A) (name : pystr)
    (kwargs : dict) : result A :=
  match dict_lookup name kwargs with
  | Some v => validate v
  | None => Raise ValidationError
  end.

(** A field with a default. *)
Definition optional {A : Type} (validate : json → result A) (name : pystr)
    (default : A) (kwargs : dict) : result A :=
  match dict_lookup name kwargs with
  | Some v => validate v
  | None => OK default
  end.

(** [Task( **kwargs )]: every field is validated, keys that are no field are
    ignored. *)
Definition Task_init (kwargs : dict) : result Task.t :=
  let? id := required validate_str (py "id") kwargs in
  let? text := required validate_str (py "text") kwargs in
  let? done := optional validate_bool (py "done") false kwargs in
  let? created_at := required validate_str (py "created_at") kwargs in
  let? due_date := optional validate_optional_str (py "due_date") None kwargs in
  OK (Task.mk id text (JBool done) created_at due_date).

(** [Task( **t )] for an item [t] of the stored list: only a mapping can be
    unpacked. *)
Definition Task_from (t : json) : result Task.t :=
  match t with
  | JObj kwargs => Task_init kwargs
  | _ => Raise TypeError
  end.

(** [raw.get("tasks", [])]: an attribute of a [dict] only. *)
Definition method_get (raw : json) (key : pystr) (default : json) : result json :=
  match raw with
  | JObj members => OK (dict_get key default members)
  | _ => Raise AttributeError
  end.

(** *** Storage helpers *)

Definition _read_store : M TaskList :=
  λ d,
    (let? raw := load_file d in
     let? stored := method_get raw (py "tasks") (JArr []) in
     let? items := iterate stored in
     comprehension Task_from items,
     d).

(** The exception of [json.dump] on the [done] of a task, if any. A
    validated task has a Boolean there, which is always written. *)
Definition dump_error (done : json) : option exn :=
  match done with
  | JBool _ => None
  | _ => json_dump_error done
  end.

(** [json.dump] on the tasks in turn: the first [done] it cannot write
    ends it. The other attributes are strings or [None], which it always
    writes. *)
Definition json_dump (tasks : TaskList) : result unit :=
  let? _ :=
    comprehension
      (λ task, match dump_error (Task.done task) with
               | Some e => Raise e
               | None => OK tt
               end)
      tasks in
  OK tt.

(** [open(DATA_FILE, "w")] empties the file, then the whole list is dumped
    into it. When the dump raises, the file is left with what was written
    until then, which [json.load] rejects. Failures of the disk itself are
    not modelled. *)
Definition _write_store (tasks : TaskList) : M unit :=
  λ _, match json_dump tasks with
       | OK _ => (OK tt, Doc (tasks_data_of tasks))
       | Raise e => (Raise e, Garbled)
       end.

(** The task list a data file holds, as [_read_store] returns it. *)
Definition stored_tasks (d : disk) : result TaskList := (_read_store d).1.

(** *** The widget *)

(** [tasks_json] of [_render_widget_html]:
    [json.dumps(tasks_data).replace("</", "<\\/")]. *)
Definition tasks_json (tasks_data : json) : pystr :=
  str_replace (py "</") (py "<\/") (dumps tasks_data).

Definition _render_widget_html (tasks_data : json) : result pystr :=
  let assets_base := rstrip (py "/") WIDGET_ASSET_ROUTE in
  let css_path := assets_base ++ py "/todo.css?v=" ++ WIDGET_ASSET_VERSION in
  let js_path := assets_base ++ py "/todo.js?v=" ++ WIDGET_ASSET_VERSION in
  let tasks_json := tasks_json tasks_data in
  let? formatted :=
    str_format TODO_WIDGET_HTML
      [(py "CSS_PATH", css_path);
       (py "JS_PATH", js_path);
       (py "WIDGET_VERSION", WIDGET_ASSET_VERSION)] in
  OK (str_replace TASKS_JSON_placeholder tasks_json formatted).

Definition _embedded_widget_resource (tasks_data : json)
  : result EmbeddedResource :=
  let? text := _render_widget_html tasks_data in
  OK {| uri := TEMPLATE_URI; mimeType := MIME_TYPE; html := text;
        title := py "Todo List" |}.

(** *** Handlers *)

Definition _handle_read_resource (req_uri : pystr) : M ReadResourceResult :=
  if str_eqb req_uri TEMPLATE_URI then
    let! tasks := _read_store in
    let tasks_data := tasks_data_of tasks in
    let! text := raise_from (_render_widget_html tasks_data) in
    ret {| contents := [text]; error := None |}
  else
    ret {| contents := [];
           error := Some (py "Unknown resource: " ++ req_uri) |}.

Definition _meta_with_widget (tasks_data : json) : result ToolMeta :=
  let? widget_resource := _embedded_widget_resource tasks_data in
  OK {| openai_widget := widget_resource; base_meta := BASE_WIDGET_META |}.

(** [v.strip()]: a method of [str] only. *)
Definition method_strip (v : json) : result pystr :=
  match v with
  | JStr s => OK (strip s)
  | _ => Raise AttributeError
  end.

(** [task.id == task_id], the left side being a [str]. *)
Definition str_equals (s : pystr) (v : json) : bool :=
  match v with
  | JStr s' => str_eqb s s'
  | _ => false
  end.

(** The loop of [mark_done]: the first task whose id equals [task_id] gets
    [done] assigned, and the loop ends there. Returns the list after the
    loop and [updated]. *)
Fixpoint mark_first (task_id done : json) (tasks : TaskList) : TaskList * bool :=
  match tasks with
  | [] => ([], false)
  | task :: rest =>
      if str_equals (Task.id task) task_id
      then (set_done done task :: rest, true)
      else let '(rest', updated) := mark_first task_id done rest in
           (task :: rest', updated)
  end.

(** The check mark that opens the confirmations (U+2713). *)
Definition check_mark : pystr := [10003].

Definition get_tasks : M CallToolResult :=
  let! tasks := _read_store in
  let tasks_data := tasks_data_of tasks in
  let! meta := raise_from (_meta_with_widget tasks_data) in
  ret (widget_result (Text (py "Here are your tasks!")) tasks_data meta).

Definition add_task (env : Env) (args : dict) : M CallToolResult :=
  let! text := raise_from (method_strip (dict_get (py "text") (JStr []) args)) in
  if negb (truthy (JStr text)) then
    ret (error_result (Text (py "Error: Task text cannot be empty")))
  else
    let! tasks := _read_store in
    let! new_task :=
      raise_from
        (Task_init
           [(py "id", JStr (uuid4 env));
            (py "text", JStr text);
            (py "done", JBool false);
            (py "created_at", JStr (utcnow_isoformat env ++ py "Z"));
            (py "due_date", dict_get (py "due_date") JNull args)]) in
    let tasks := tasks ++ [new_task] in
    let! _ := _write_store tasks in
    let tasks_data := tasks_data_of tasks in
    let! meta := raise_from (_meta_with_widget tasks_data) in
    ret (widget_result
           (Text (check_mark ++ py " Added task: " ++ Task.text new_task))
           tasks_data meta).

Definition mark_done (args : dict) : M CallToolResult :=
  let task_id := dict_get (py "task_id") JNull args in
  let done := dict_get (py "done") (JBool true) args in
  let! tasks := _read_store in
  let '(tasks, updated) := mark_first task_id done tasks in
  if negb updated then
    ret (error_result (TaskNotFound task_id))
  else
    let! _ := _write_store tasks in
    let tasks_data := tasks_data_of tasks in
    let! meta := raise_from (_meta_with_widget tasks_data) in
    ret (widget_result
           (Text (check_mark ++ py " Task "
                  ++ (if truthy done then py "completed" else py "reopened")
                  ++ py "!"))
           tasks_data meta).

(** [req.params.arguments or {}]. *)
Definition arguments_or_empty (arguments : option dict) : dict :=
  match arguments with
  | Some args => args
  | None => []
  end.

Definition _handle_call_tool (env : Env) (tool_name : pystr)
    (arguments : option dict) : disk → CallToolResult * disk :=
  let args := arguments_or_empty arguments in
  try_except
    (if str_eqb tool_name (py "get_tasks") then get_tasks
     else if str_eqb tool_name (py "add_task") then add_task env args
     else if str_eqb tool_name (py "mark_done") then mark_done args
     else ret (error_result (Text (py "Unknown tool: " ++ tool_name))))
    (λ e, error_result (Failure e)).


(** ** Vocabulary of the properties *)

(** The position of the first task whose id equals [task_id]. *)
Fixpoint first_match (task_id : json) (tasks : TaskList) : option nat :=
  match tasks with
  | [] => None
  | task :: rest =>
      if str_equals (Task.id task) task_id then Some 0%nat
      else S <$> first_match task_id rest
  end.

(** The ids of a task list are pairwise distinct and no text is empty. *)
Definition store_invariant (tasks : TaskList) : Prop :=
  NoDup (List.map Task.id tasks) ∧ Forall (λ t, Task.text t ≠ []) tasks.

(** The same, of the task list a data file holds. *)
Definition disk_invariant (d : disk) : Prop :=
  ∀ tasks, stored_tasks d = OK tasks → store_invariant tasks.

(** The Task schema in the words of the interface description: a record
    with [id], [text] and [created_at] strings, [done] a Boolean when it is
    there, [due_date] null or a string when it is there. For [done] the
    validator also takes what it can convert to a Boolean. *)
Definition is_string (v : json) : bool :=
  match v with JStr _ => true | _ => false end.

Definition is_nullable_string (v : json) : bool :=
  match v with JNull | JStr _ => true | _ => false end.

Definition is_boolean (v : json) : bool :=
  match v with
  | JBool _ => true
  | _ => match lax_bool v with Some _ => true | None => false end
  end.

Definition field_is (p : json → bool) (name : pystr) (absent : bool)
    (members : dict) : bool :=
  match dict_lookup name members with
  | Some v => p v
  | None => absent
  end.

Definition matches_Task_schema (item : json) : bool :=
  match item with
  | JObj members =>
      field_is is_string (py "id") false members &&
      field_is is_string (py "text") false members &&
      field_is is_boolean (py "done") true members &&
      field_is is_string (py "created_at") false members &&
      field_is is_nullable_string (py "due_date") true members
  | _ => false
  end.

(** Two tasks that differ in [done] at most. *)
Definition same_fields (t t' : Task.t) : Prop :=
  Task.id t' = Task.id t ∧ Task.text t' = Task.text t ∧
  Task.created_at t' = Task.created_at t ∧ Task.due_date t' = Task.due_date t.

(** A printable ASCII character, [' '] to ['~']. *)
Definition printable (c : N) : bool := (32 <=? c) && (c <=? 126).

(** * Properties *)

(** ** Strings *)

Lemma str_eqb_eq (a b : pystr) : str_eqb a b = true ↔ a = b.
Proof.
  revert b; induction a as [|x a IH]; intros [|y b]; simpl; try easy.
  rewrite andb_true_iff, N.eqb_eq, IH. split.
  - intros [-> ->]; reflexivity.
  - intros [= -> ->]; auto.
Qed.

Lemma str_eqb_refl (a : pystr) : str_eqb a a = true.
Proof. by apply str_eqb_eq. Qed.

Lemma str_eqb_neq (a b : pystr) : str_eqb a b = false ↔ a ≠ b.
Proof.
  rewrite <- str_eqb_eq. destruct (str_eqb a b); split; congruence.
Qed.

(** What [lstrip] removes is a prefix of characters of the set, and what it
    leaves does not start with one. *)
Lemma lstrip_by_split (p : N → bool) (s : pystr) :
  ∃ pre, s = pre ++ lstrip_by p s ∧ forallb p pre = true ∧
         ∀ c r, lstrip_by p s = c :: r → p c = false.
Proof.
  induction s as [|c s (pre & Hs & Hpre & Hhd)]; simpl.
  - exists []. split_and!; [done..|]. intros ?? [=].
  - destruct (p c) eqn:Hc.
    + exists (c :: pre). simpl. rewrite Hc, Hpre. split_and!; [|done..].
      by f_equal.
    + exists []. split_and!; [done..|]. by intros ?? [= -> ->].
Qed.

Lemma lstrip_by_nil (p : N → bool) (s : pystr) :
  lstrip_by p s = [] ↔ forallb p s = true.
Proof.
  induction s as [|c s IH]; simpl; [done|].
  destruct (p c); simpl; [done|]. split; discriminate.
Qed.


Lemma rstrip_by_nil (p : N → bool) (s : pystr) :
  rstrip_by p s = [] ↔ forallb p s = true.
Proof.
  unfold rstrip_by. split.
  - intros H. apply (f_equal (@rev N)) in H. rewrite rev_involutive in H.
    simpl in H. apply lstrip_by_nil in H.
    rewrite forallb_forall in *. intros x Hx. apply H. by apply in_rev in Hx.
  - intros H. assert (lstrip_by p (rev s) = []) as ->; [|done].
    apply lstrip_by_nil. rewrite forallb_forall in *.
    intros x Hx. apply H. by apply in_rev.
Qed.

(** [s.strip()] is empty exactly when [s] is empty or all whitespace. *)
Lemma strip_nil (s : pystr) : strip s = [] ↔ forallb is_space s = true.
Proof.
  unfold strip, strip_by. rewrite rstrip_by_nil.
  destruct (lstrip_by_split is_space s) as (pre & Hs & Hpre & Hhd).
  split.
  - intros H. rewrite Hs, forallb_app, Hpre, H. done.
  - intros H. destruct (lstrip_by is_space s) as [|c r] eqn:E; [done|].
    rewrite Hs, forallb_app in H. apply andb_true_iff in H as [_ H].
    simpl in H. by rewrite (Hhd c r) in H.
Qed.


(** The rewriting of [_render_widget_html]: ["</"] becomes ["<\/"]. After
    it the closing sequence is gone: a replaced occurrence leaves [<], [\],
    [/], and two characters that were apart before are only brought together
    across a backslash. *)
Lemma replace_close_from (s : pystr) :
  contains (py "</") (replace_from (py "</") (py "<\/") 0 s) = false ∧
  contains (py "</") (replace_from (py "</") (py "<\/") 1 s) = false ∧
  (∀ r, replace_from (py "</") (py "<\/") 0 s = 47 :: r → ∃ s', s = 47 :: s').
Proof.
  change (py "</") with [60; 47]. change (py "<\/") with [60; 92; 47].
  induction s as [|c s (IH0 & IH1 & IHhd)]; [done|].
  split_and!.
  - cbn [replace_from]. destruct (starts_with [60; 47] (c :: s)) eqn:E.
    + cbn [length Nat.sub app]. cbn. exact IH1.
    + cbn [contains]. rewrite IH0, orb_false_r.
      cbn [starts_with]. destruct (N.eqb_spec 60 c) as [<-|]; [|done].
      destruct (replace_from [60; 47] [60; 92; 47] 0 s) as [|c' r] eqn:Er; [done|].
      destruct (N.eqb_spec 47 c') as [<-|]; [|done].
      destruct (IHhd r eq_refl) as [s' ->]. cbn in E. done.
  - cbn [replace_from]. exact IH0.
  - intros r. cbn [replace_from].
    destruct (starts_with [60; 47] (c :: s)) eqn:E.
    + cbn. discriminate.
    + intros [= -> _]. by eexists.
Qed.

Lemma replace_close (s : pystr) :
  contains (py "</") (str_replace (py "</") (py "<\/") s) = false.
Proof. apply replace_close_from. Qed.

(** With nothing to replace, [replace] returns the string as it is,
    whatever the replacement. *)
Lemma replace_from_absent (old new s : pystr) :
  contains old s = false → replace_from old new 0 s = s.
Proof.
  induction s as [|c s IH]; [done|].
  cbn [contains replace_from]. intros [H1 H2]%orb_false_iff.
  rewrite H1. f_equal. by apply IH.
Qed.

(** ** The error monad *)

Lemma comprehension_OK {A B : Type} (f : A → result B) xs ys :
  comprehension f xs = OK ys ↔ Forall2 (λ x y, f x = OK y) xs ys.
Proof.
  revert ys; induction xs as [|x xs IH]; intros ys; simpl.
  - split; [intros [= <-]; constructor | by inversion 1].
  - destruct (f x) as [y|e] eqn:Ex; simpl.
    + destruct (comprehension f xs) as [ys'|e] eqn:Exs; simpl.
      * split.
        -- intros [= <-]. constructor; [done|]. by apply IH.
        -- inversion 1 as [|? y' ? ys'' Hy Hys]; subst.
           apply IH in Hys. congruence.
      * split; [done|]. inversion 1 as [|? y' ? ys'' Hy Hys]; subst.
        apply IH in Hys. congruence.
    + split; [done|]. inversion 1; congruence.
Qed.

(** ** The task store *)

(** Looking a literal key up in a dict whose keys are literals. *)
Ltac eval_lookups :=
  repeat match goal with
         | |- context [dict_lookup ?k ?d] =>
             let r := eval vm_compute in (dict_lookup k d) in
             change (dict_lookup k d) with r
         end.

(** Reading back what [model_dump] wrote re-validates [done] and keeps the
    other fields. *)
Lemma Task_from_model_dump (task : Task.t) :
  Task_from (model_dump task) =
  let? b := validate_bool (Task.done task) in OK (set_done (JBool b) task).
Proof.
  destruct task as [i t d c due].
  unfold Task_from, model_dump, Task_init, required, optional.
  eval_lookups. cbn [bindR validate_str Task.done Task.due_date].
  destruct (validate_bool d); [|done]. by destruct due.
Qed.

Lemma Task_from_model_dump_bool (task : Task.t) (b : bool) :
  Task.done task = JBool b → Task_from (model_dump task) = OK task.
Proof.
  intros Hb. rewrite Task_from_model_dump, Hb. by destruct task; simplify_eq/=.
Qed.

(** A task that came out of validation has a Boolean [done]. *)
Lemma Task_init_done (kwargs : dict) (task : Task.t) :
  Task_init kwargs = OK task → ∃ b, Task.done task = JBool b.
Proof.
  unfold Task_init, bindR. intros H.
  repeat match type of H with
         | match ?r with _ => _ end = _ => destruct r; [|discriminate]
         end.
  injection H as <-. by eexists.
Qed.

Lemma Task_from_done (item : json) (task : Task.t) :
  Task_from item = OK task → ∃ b, Task.done task = JBool b.
Proof. destruct item; try discriminate. apply Task_init_done. Qed.

(** How [_read_store] computes, and that it leaves the file alone. *)
Lemma stored_tasks_eq (d : disk) :
  stored_tasks d =
  let? raw := load_file d in
  let? stored := method_get raw (py "tasks") (JArr []) in
  let? items := iterate stored in
  comprehension Task_from items.
Proof. reflexivity. Qed.

Lemma _read_store_eq (d : disk) : _read_store d = (stored_tasks d, d).
Proof. reflexivity. Qed.

Lemma stored_tasks_written (tasks : TaskList) :
  stored_tasks (Doc (tasks_data_of tasks)) =
  comprehension Task_from (List.map model_dump tasks).
Proof. reflexivity. Qed.

Lemma stored_tasks_done (d : disk) (tasks : TaskList) :
  stored_tasks d = OK tasks → Forall (λ t, ∃ b, Task.done t = JBool b) tasks.
Proof.
  rewrite stored_tasks_eq. unfold bindR.
  destruct (load_file d); [|done].
  destruct (method_get _ _ _); [|done].
  destruct (iterate _) as [items|]; [|done].
  intros H%comprehension_OK. induction H as [|?????? IH]; constructor; [|done].
  by eapply Task_from_done.
Qed.

(** Write, then read: the list comes back when every [done] is Boolean. *)
Lemma stored_tasks_write_read (tasks : TaskList) :
  Forall (λ t, ∃ b, Task.done t = JBool b) tasks →
  stored_tasks (Doc (tasks_data_of tasks)) = OK tasks.
Proof.
  intros H. rewrite stored_tasks_written. apply comprehension_OK.
  induction H as [|t ts [b Hb] _ IH]; simpl; constructor; [|done].
  by eapply Task_from_model_dump_bool.
Qed.

(** Write, then read: whatever comes back differs from what was written in
    [done] at most. *)
Lemma stored_tasks_write_fields (tasks tasks' : TaskList) :
  stored_tasks (Doc (tasks_data_of tasks)) = OK tasks' →
  Forall2 (λ t t', ∃ b, t' = set_done (JBool b) t) tasks tasks'.
Proof.
  rewrite stored_tasks_written. intros H%comprehension_OK.
  apply Forall2_fmap_l in H.
  eapply Forall2_impl; [exact H|]. intros t t'; unfold compose.
  rewrite Task_from_model_dump. unfold bindR.
  destruct (validate_bool _) as [b|]; [|done]. intros [= <-]. by eexists.
Qed.

(** ** Writing the store *)

Lemma _write_store_eq (tasks : TaskList) (d : disk) :
  _write_store tasks d =
  match json_dump tasks with
  | OK _ => (OK tt, Doc (tasks_data_of tasks))
  | Raise e => (Raise e, Garbled)
  end.
Proof. reflexivity. Qed.

(** A list of validated tasks is always written. *)
Lemma json_dump_bool (tasks : TaskList) :
  Forall (λ t, ∃ b, Task.done t = JBool b) tasks → json_dump tasks = OK tt.
Proof.
  unfold json_dump. induction 1 as [|t ts [b Hb] _ IH]; [done|]. simpl.
  rewrite Hb. simpl. by destruct (comprehension _ ts).
Qed.

(** After an assignment to one task of a validated list, the dump stands
    or falls with the assigned value. *)
Lemma json_dump_alter (tasks : TaskList) (i : nat) (task : Task.t) (v : json) :
  Forall (λ t, ∃ b, Task.done t = JBool b) tasks →
  tasks !! i = Some task →
  json_dump (alter (set_done v) i tasks) =
  match dump_error v with Some e => Raise e | None => OK tt end.
Proof.
  unfold json_dump. intros H; revert i.
  induction H as [|t ts [b Hb] Hts IH]; intros [|i]; simpl; try done.
  - intros _. destruct (dump_error v); [done|]. simpl.
    apply json_dump_bool in Hts. unfold json_dump in Hts.
    by destruct (comprehension _ ts).
  - intros Hi. rewrite Hb. simpl. rewrite <- (IH i Hi).
    change (list_alter (set_done v) i ts) with (alter (set_done v) i ts).
    by destruct (comprehension _ (alter _ i ts)).
Qed.

Lemma _write_store_bool (tasks : TaskList) (d : disk) :
  Forall (λ t, ∃ b, Task.done t = JBool b) tasks →
  _write_store tasks d = (OK tt, Doc (tasks_data_of tasks)).
Proof. intros H. by rewrite _write_store_eq, json_dump_bool. Qed.

Lemma _write_store_alter (tasks : TaskList) i task v (d d0 : disk) :
  stored_tasks d0 = OK tasks →
  tasks !! i = Some task →
  _write_store (alter (set_done v) i tasks) d =
  match dump_error v with
  | Some e => (Raise e, Garbled)
  | None => (OK tt, Doc (tasks_data_of (alter (set_done v) i tasks)))
  end.
Proof.
  intros H%stored_tasks_done Hi.
  rewrite _write_store_eq, (json_dump_alter _ _ _ _ H Hi).
  by destruct (dump_error v).
Qed.

(** ** The widget *)

(** Formatting the template never fails, whatever the asset version. *)
Lemma str_format_template :
  ∃ page,
    str_format TODO_WIDGET_HTML
      [(py "CSS_PATH",
        rstrip (py "/") WIDGET_ASSET_ROUTE ++ py "/todo.css?v="
        ++ WIDGET_ASSET_VERSION);
       (py "JS_PATH",
        rstrip (py "/") WIDGET_ASSET_ROUTE ++ py "/todo.js?v="
        ++ WIDGET_ASSET_VERSION);
       (py "WIDGET_VERSION", WIDGET_ASSET_VERSION)] = OK page.
Proof. eexists. vm_compute. reflexivity. Qed.

(** The renderer returns a page for every task list: the formatted
    template, with the placeholder replaced by [tasks_json] wherever it
    occurs. *)
Lemma _render_widget_html_eq :
  ∃ page, ∀ tasks_data,
    _render_widget_html tasks_data =
    OK (str_replace TASKS_JSON_placeholder (tasks_json tasks_data) page).
Proof.
  destruct str_format_template as [page Hpage]. exists page. intros d.
  unfold _render_widget_html. cbv zeta. by rewrite Hpage.
Qed.

Lemma _render_widget_html_total (tasks_data : json) :
  ∃ text, _render_widget_html tasks_data = OK text.
Proof.
  destruct _render_widget_html_eq as [page H]. rewrite H. by eexists.
Qed.

Lemma _meta_with_widget_total (tasks_data : json) :
  ∃ meta, _meta_with_widget tasks_data = OK meta.
Proof.
  unfold _meta_with_widget, _embedded_widget_resource.
  destruct (_render_widget_html_total tasks_data) as [text ->]. by eexists.
Qed.

(** ** Matching a task id *)

Lemma str_equals_true (s : pystr) (v : json) :
  str_equals s v = true ↔ v = JStr s.
Proof.
  destruct v; simpl; try (split; [discriminate|by intros [=]]).
  rewrite str_eqb_eq. split; [by intros ->|by intros [= ->]].
Qed.

Lemma first_match_None (task_id : json) (tasks : TaskList) :
  first_match task_id tasks = None ↔
  Forall (λ t, task_id ≠ JStr (Task.id t)) tasks.
Proof.
  induction tasks as [|task rest IH]; simpl; [by split; [constructor|]|].
  destruct (str_equals _ _) eqn:E.
  - apply str_equals_true in E. split; [done|]. by inversion 1.
  - rewrite fmap_None, IH. split.
    + intros H. constructor; [|done]. intros Heq%str_equals_true. congruence.
    + by inversion 1.
Qed.

Lemma first_match_Some (task_id : json) (tasks : TaskList) (i : nat) :
  first_match task_id tasks = Some i →
  ∃ task, tasks !! i = Some task ∧ task_id = JStr (Task.id task) ∧
          Forall (λ t, task_id ≠ JStr (Task.id t)) (take i tasks).
Proof.
  revert i; induction tasks as [|task rest IH]; intros i; simpl; [done|].
  destruct (str_equals _ _) eqn:E.
  - intros [= <-]. exists task. apply str_equals_true in E.
    split_and!; [done..|]. constructor.
  - intros (j & Hj & ->)%fmap_Some. destruct (IH j Hj) as (t & ? & ? & ?).
    exists t. split_and!; [done..|]. simpl. constructor; [|done].
    intros Heq%str_equals_true. congruence.
Qed.

Lemma first_match_elem (tid : pystr) (tasks : TaskList) :
  In tid (List.map Task.id tasks) → ∃ i, first_match (JStr tid) tasks = Some i.
Proof.
  intros Hin. destruct (first_match (JStr tid) tasks) as [i|] eqn:E; [by eexists|].
  apply first_match_None in E. apply in_map_iff in Hin as (t & <- & Hin).
  rewrite Forall_forall in E. apply list_elem_of_In in Hin.
  by destruct (E t Hin).
Qed.

(** The first match depends on the ids alone. *)
Lemma first_match_ids (task_id : json) (tasks1 tasks2 : TaskList) :
  List.map Task.id tasks1 = List.map Task.id tasks2 →
  first_match task_id tasks1 = first_match task_id tasks2.
Proof.
  revert tasks2; induction tasks1 as [|t1 l1 IH]; intros [|t2 l2]; try done.
  simpl. intros [= -> H]. by rewrite (IH l2 H).
Qed.

Lemma alter_set_done_ids (v : json) (i : nat) (tasks : TaskList) :
  List.map Task.id (alter (set_done v) i tasks) = List.map Task.id tasks.
Proof.
  revert i; induction tasks as [|t l IH]; intros [|i]; simpl; try done.
  f_equal. apply IH.
Qed.

Lemma alter_set_done_texts (v : json) (i : nat) (tasks : TaskList) :
  List.map Task.text (alter (set_done v) i tasks) = List.map Task.text tasks.
Proof.
  revert i; induction tasks as [|t l IH]; intros [|i]; simpl; try done.
  f_equal. apply IH.
Qed.

Lemma alter_insert (f : Task.t → Task.t) (i : nat) (tasks : TaskList) task :
  tasks !! i = Some task → alter f i tasks = <[i := f task]> tasks.
Proof.
  revert i; induction tasks as [|t l IH]; intros [|i]; simpl; try done.
  - by intros [= ->].
  - intros H. f_equal. by apply IH.
Qed.

(** ** The tool dispatcher *)

Lemma dispatch_get_tasks env arguments :
  _handle_call_tool env (py "get_tasks") arguments =
  try_except get_tasks (λ e, error_result (Failure e)).
Proof. reflexivity. Qed.

Lemma dispatch_add_task env arguments :
  _handle_call_tool env (py "add_task") arguments =
  try_except (add_task env (arguments_or_empty arguments))
    (λ e, error_result (Failure e)).
Proof. reflexivity. Qed.

Lemma dispatch_mark_done env arguments :
  _handle_call_tool env (py "mark_done") arguments =
  try_except (mark_done (arguments_or_empty arguments))
    (λ e, error_result (Failure e)).
Proof. reflexivity. Qed.

(** [get_tasks]: the stored list is returned and the file is not written. *)
Lemma get_tasks_run env arguments d :
  _handle_call_tool env (py "get_tasks") arguments d =
  (match stored_tasks d with
   | OK tasks =>
       match _meta_with_widget (tasks_data_of tasks) with
       | OK meta =>
           widget_result (Text (py "Here are your tasks!"))
             (tasks_data_of tasks) meta
       | Raise e => error_result (Failure e)
       end
   | Raise e => error_result (Failure e)
   end, d).
Proof.
  rewrite dispatch_get_tasks.
  unfold try_except, get_tasks, bindM, raise_from, ret.
  rewrite _read_store_eq. destruct (stored_tasks d) as [tasks|e]; [|done].
  by destruct (_meta_with_widget _).
Qed.

(** The task [add_task] builds. *)
Lemma new_task_eq env text (args : dict) :
  Task_init
    [(py "id", JStr (uuid4 env));
     (py "text", JStr text);
     (py "done", JBool false);
     (py "created_at", JStr (utcnow_isoformat env ++ py "Z"));
     (py "due_date", dict_get (py "due_date") JNull args)] =
  let? due_date := validate_optional_str (dict_get (py "due_date") JNull args) in
  OK (Task.mk (uuid4 env) text (JBool false) (utcnow_isoformat env ++ py "Z")
        due_date).
Proof.
  unfold Task_init, required, optional. eval_lookups. reflexivity.
Qed.

(** [add_task], case by case. *)
Lemma add_task_run env arguments d :
  _handle_call_tool env (py "add_task") arguments d =
  let args := arguments_or_empty arguments in
  match dict_get (py "text") (JStr []) args with
  | JStr s =>
      match strip s with
      | [] => (error_result (Text (py "Error: Task text cannot be empty")), d)
      | _ :: _ =>
          match stored_tasks d with
          | OK tasks =>
              match validate_optional_str (dict_get (py "due_date") JNull args) with
              | OK due_date =>
                  let new_task :=
                    Task.mk (uuid4 env) (strip s) (JBool false)
                      (utcnow_isoformat env ++ py "Z") due_date in
                  let tasks := tasks ++ [new_task] in
                  (match _meta_with_widget (tasks_data_of tasks) with
                   | OK meta =>
                       widget_result
                         (Text (check_mark ++ py " Added task: " ++ strip s))
                         (tasks_data_of tasks) meta
                   | Raise e => error_result (Failure e)
                   end, Doc (tasks_data_of tasks))
              | Raise e => (error_result (Failure e), d)
              end
          | Raise e => (error_result (Failure e), d)
          end
      end
  | _ => (error_result (Failure AttributeError), d)
  end.
Proof.
  rewrite dispatch_add_task. cbv zeta.
  unfold try_except, add_task, bindM, raise_from, ret.
  destruct (dict_get (py "text") (JStr []) _) as [| | | |s| |]; try reflexivity.
  cbn [method_strip]. destruct (strip s) as [|c text] eqn:Es; [reflexivity|].
  cbn [truthy str_eqb negb]. rewrite _read_store_eq.
  destruct (stored_tasks d) as [tasks|e] eqn:Hd; [|done].
  rewrite new_task_eq. unfold bindR.
  destruct (validate_optional_str _) as [due|e]; [|done].
  rewrite _write_store_bool.
  - cbn [Task.text]. by destruct (_meta_with_widget _).
  - apply Forall_app. split; [by eapply stored_tasks_done|].
    constructor; [by eexists|constructor].
Qed.

(** The loop of [mark_done] against the position of the first match. *)
Lemma mark_first_eq task_id done tasks :
  mark_first task_id done tasks =
  match first_match task_id tasks with
  | Some i => (alter (set_done done) i tasks, true)
  | None => (tasks, false)
  end.
Proof.
  induction tasks as [|task rest IH]; [done|]. simpl.
  destruct (str_equals _ _); [done|]. rewrite IH.
  by destruct (first_match task_id rest).
Qed.

(** [mark_done], case by case. *)
Lemma mark_done_run env arguments d :
  _handle_call_tool env (py "mark_done") arguments d =
  let args := arguments_or_empty arguments in
  let task_id := dict_get (py "task_id") JNull args in
  let done := dict_get (py "done") (JBool true) args in
  match stored_tasks d with
  | OK tasks =>
      match first_match task_id tasks with
      | Some i =>
          let tasks := alter (set_done done) i tasks in
          match dump_error done with
          | None =>
              (match _meta_with_widget (tasks_data_of tasks) with
               | OK meta =>
                   widget_result
                     (Text (check_mark ++ py " Task "
                            ++ (if truthy done then py "completed"
                                else py "reopened")
                            ++ py "!"))
                     (tasks_data_of tasks) meta
               | Raise e => error_result (Failure e)
               end, Doc (tasks_data_of tasks))
          | Some e => (error_result (Failure e), Garbled)
          end
      | None => (error_result (TaskNotFound task_id), d)
      end
  | Raise e => (error_result (Failure e), d)
  end.
Proof.
  rewrite dispatch_mark_done. cbv zeta.
  unfold try_except, mark_done, bindM, raise_from, ret.
  rewrite _read_store_eq.
  destruct (stored_tasks d) as [tasks|e] eqn:Hd; [|done].
  rewrite mark_first_eq.
  destruct (first_match _ tasks) as [i|] eqn:Hi; [|done].
  destruct (first_match_Some _ _ _ Hi) as (task & Htask & _).
  cbn [negb]. rewrite (_write_store_alter _ _ _ _ _ _ Hd Htask).
  destruct (dump_error _); [done|]. by destruct (_meta_with_widget _).
Qed.

(** ** [add_task] *)

(** Whenever the store can be read and [due_date] is absent, null or a
    string, [add_task] with a text that is not blank succeeds. *)
Lemma add_task_succeeds env arguments d s tasks :
  dict_get (py "text") (JStr []) (arguments_or_empty arguments) = JStr s →
  strip s ≠ [] →
  stored_tasks d = OK tasks →
  (∃ due_date,
     validate_optional_str
       (dict_get (py "due_date") JNull (arguments_or_empty arguments))
     = OK due_date) →
  isError (_handle_call_tool env (py "add_task") arguments d).1 = false.
Proof.
  intros Ht Hs Hd [due Hdue]. rewrite add_task_run. cbv zeta.
  rewrite Ht, Hd, Hdue. destruct (strip s) as [|c text]; [done|].
  by destruct (_meta_with_widget_total
                 (tasks_data_of (tasks ++ [Task.mk (uuid4 env) (c :: text)
                    (JBool false) (utcnow_isoformat env ++ py "Z") due])))
    as [meta ->].
Qed.


(** A stored list with one validated task more reads back as it is. *)
Lemma stored_tasks_snoc d (tasks : TaskList) (task : Task.t) b :
  stored_tasks d = OK tasks →
  Task.done task = JBool b →
  stored_tasks (Doc (tasks_data_of (tasks ++ [task]))) = OK (tasks ++ [task]).
Proof.
  intros Hd Hb. apply stored_tasks_write_read, Forall_app. split.
  - by eapply stored_tasks_done.
  - repeat constructor. by exists b.
Qed.


(** C2. With a text that is missing, empty or all whitespace, [add_task]
    answers with the error flag and a text block only, no structured
    payload, and the data file is what it was. *)
Theorem add_task_blank_rejected env arguments d s r d' :
  dict_lookup (py "text") (arguments_or_empty arguments) = None ∧ s = [] ∨
  dict_lookup (py "text") (arguments_or_empty arguments) = Some (JStr s) →
  forallb is_space s = true →
  _handle_call_tool env (py "add_task") arguments d = (r, d') →
  r = error_result (Text (py "Error: Task text cannot be empty")) ∧
  isError r = true ∧
  structuredContent r = None ∧
  d' = d.
Proof.
  intros Ht Hs. rewrite add_task_run. cbv zeta.
  assert (dict_get (py "text") (JStr []) (arguments_or_empty arguments)
          = JStr s) as ->.
  { unfold dict_get. by destruct Ht as [[-> ->]| ->]. }
  apply strip_nil in Hs. rewrite Hs. by intros [= <- <-].
Qed.

(** ** [mark_done] *)

(** C3. When [task_id] is the id of no stored task, as when it is missing,
    [mark_done] answers with the error flag and a text block only, no
    structured payload, and the data file is what it was. On a store that
    can be read the text is the one that names the id. *)
Theorem mark_done_unknown_id env arguments d r d' :
  (∀ tasks, stored_tasks d = OK tasks →
     Forall (λ t, dict_get (py "task_id") JNull (arguments_or_empty arguments)
                  ≠ JStr (Task.id t)) tasks) →
  _handle_call_tool env (py "mark_done") arguments d = (r, d') →
  (∃ m, r = error_result m) ∧
  isError r = true ∧
  structuredContent r = None ∧
  d' = d ∧
  (is_OK (stored_tasks d) = true →
   r = error_result
         (TaskNotFound
            (dict_get (py "task_id") JNull (arguments_or_empty arguments)))).
Proof.
  intros Hid. rewrite mark_done_run. cbv zeta.
  destruct (stored_tasks d) as [tasks|e].
  - specialize (Hid tasks eq_refl). apply first_match_None in Hid.
    rewrite Hid.
    intros [= <- <-]. split_and!; try done. by eexists.
  - intros [= <- <-]. split_and!; try done. by eexists.
Qed.

(** ** [get_tasks] *)

(** C6. [get_tasks] leaves the data file as it is, and two calls in a row
    give the same response, structured payload included, whatever the
    arguments and the time of the calls. *)
Theorem get_tasks_read_only env1 env2 arguments1 arguments2 d :
  let '(r1, d1) := _handle_call_tool env1 (py "get_tasks") arguments1 d in
  let '(r2, d2) := _handle_call_tool env2 (py "get_tasks") arguments2 d1 in
  d1 = d ∧ d2 = d ∧ structuredContent r2 = structuredContent r1 ∧ r2 = r1.
Proof.
  rewrite get_tasks_run, get_tasks_run. done.
Qed.

(** Reading back a list in which one task had [done] assigned: the other
    tasks come back as they were, that one with [done] validated. *)
Lemma read_back_assigned (tasks tasks' : TaskList) i task v :
  Forall (λ t, ∃ b, Task.done t = JBool b) tasks →
  tasks !! i = Some task →
  stored_tasks (Doc (tasks_data_of (<[i := set_done v task]> tasks)))
  = OK tasks' →
  ∃ b, validate_bool v = OK b ∧ tasks' = <[i := set_done (JBool b) task]> tasks.
Proof.
  rewrite stored_tasks_written.
  revert i tasks'; induction tasks as [|t rest IH]; intros i tasks' Hb Hi; [done|].
  inversion Hb as [|? ? [b0 Hb0] Hb']; subst. destruct i as [|i]; cbn [insert list_insert List.map comprehension lookup list_lookup] in *.
  - injection Hi as ->. rewrite Task_from_model_dump. cbn [set_done Task.done].
    destruct (validate_bool v) as [b|]; [|done]. cbn [bindR].
    pose proof (stored_tasks_write_read rest Hb') as Hrest.
    rewrite stored_tasks_written in Hrest. rewrite Hrest. cbn [bindR].
    intros [= <-]. by exists b.
  - unfold bindR at 1. destruct (Task_from (model_dump t)) as [t'|] eqn:Et; [|done].
    unfold bindR. destruct (comprehension _ _) as [rest'|] eqn:Er; [|done].
    intros [= <-]. destruct (IH i rest' Hb' Hi Er) as (b & Hv & ->).
    exists b. split; [done|]. f_equal.
    rewrite (Task_from_model_dump_bool t b0 Hb0) in Et. congruence.
Qed.

(** [mark_done] on a readable store with a matching id and a [done] that
    can be written: the first match gets [done] assigned, the list is
    written, and the call succeeds. *)
Lemma mark_done_found env arguments d tasks i task :
  stored_tasks d = OK tasks →
  first_match (dict_get (py "task_id") JNull (arguments_or_empty arguments))
    tasks = Some i →
  tasks !! i = Some task →
  dump_error (dict_get (py "done") (JBool true) (arguments_or_empty arguments))
  = None →
  ∃ r,
    _handle_call_tool env (py "mark_done") arguments d =
    (r, Doc (tasks_data_of
               (<[i := set_done (dict_get (py "done") (JBool true)
                                   (arguments_or_empty arguments)) task]>
                  tasks))) ∧
    isError r = false.
Proof.
  intros Hd Hi Ht Hw. rewrite mark_done_run. cbv zeta. rewrite Hd, Hi, Hw.
  rewrite (alter_insert _ _ _ _ Ht).
  destruct (_meta_with_widget_total
              (tasks_data_of
                 (<[i := set_done (dict_get (py "done") (JBool true)
                                     (arguments_or_empty arguments)) task]>
                    tasks))) as [meta ->].
  by eexists.
Qed.

(** C4. For the id of a stored task, [mark_done(id, done=True)] followed by
    [mark_done(id, done=False)]: both calls succeed, and afterwards the
    store holds the same list with the first task of that id at
    [done = False], its id, text, creation time and due date as before. A
    task that was not done before the two calls is restored exactly. *)
Theorem mark_done_round_trip env1 env2 d tasks tid r1 d1 r2 d2 :
  stored_tasks d = OK tasks →
  tid ∈ List.map Task.id tasks →
  _handle_call_tool env1 (py "mark_done")
    (Some [(py "task_id", JStr tid); (py "done", JBool true)]) d = (r1, d1) →
  _handle_call_tool env2 (py "mark_done")
    (Some [(py "task_id", JStr tid); (py "done", JBool false)]) d1 = (r2, d2) →
  ∃ i task task',
    first_match (JStr tid) tasks = Some i ∧
    tasks !! i = Some task ∧
    Task.id task = tid ∧
    isError r1 = false ∧ isError r2 = false ∧
    stored_tasks d2 = OK (<[i := task']> tasks) ∧
    Task.done task' = JBool false ∧
    Task.id task' = Task.id task ∧
    Task.text task' = Task.text task ∧
    Task.created_at task' = Task.created_at task ∧
    Task.due_date task' = Task.due_date task ∧
    (Task.done task = JBool false → stored_tasks d2 = OK tasks).
Proof.
  intros Hd Hin%list_elem_of_In H1 H2.
  destruct (first_match_elem tid tasks Hin) as [i Hi].
  destruct (first_match_Some _ _ _ Hi) as (task & Ht & [= Hid] & _).
  pose proof (stored_tasks_done d tasks Hd) as Hbool.
  (* the first call *)
  destruct (mark_done_found env1
              (Some [(py "task_id", JStr tid); (py "done", JBool true)])
              d tasks i task Hd Hi Ht eq_refl) as (r1' & E1 & Hr1).
  rewrite E1 in H1. injection H1 as -> <-.
  change (dict_get (py "done") (JBool true) _) with (JBool true) in H2.
  set (tasks1 := <[i := set_done (JBool true) task]> tasks) in *.
  assert (Forall (λ t, ∃ b, Task.done t = JBool b) tasks1) as Hbool1.
  { apply Forall_insert; [done|]. by exists true. }
  assert (stored_tasks (Doc (tasks_data_of tasks1)) = OK tasks1) as Hd1
    by by apply stored_tasks_write_read.
  assert (first_match (JStr tid) tasks1 = Some i) as Hi1.
  { rewrite <- Hi. apply first_match_ids. unfold tasks1.
    rewrite <- (alter_insert (set_done (JBool true)) i tasks task Ht).
    apply alter_set_done_ids. }
  assert (tasks1 !! i = Some (set_done (JBool true) task)) as Ht1.
  { apply list_lookup_insert_eq. by eapply lookup_lt_Some. }
  (* the second call *)
  destruct (mark_done_found env2
              (Some [(py "task_id", JStr tid); (py "done", JBool false)])
              _ tasks1 i _ Hd1 Hi1 Ht1 eq_refl) as (r2' & E2 & Hr2).
  rewrite E2 in H2. injection H2 as -> <-.
  change (dict_get (py "done") (JBool true) _) with (JBool false).
  unfold tasks1. rewrite list_insert_insert_eq.
  change (set_done (JBool false) (set_done (JBool true) task))
    with (set_done (JBool false) task).
  assert (stored_tasks
            (Doc (tasks_data_of (<[i := set_done (JBool false) task]> tasks)))
          = OK (<[i := set_done (JBool false) task]> tasks)) as Hd2.
  { apply stored_tasks_write_read, Forall_insert; [done|]. by exists false. }
  exists i, task, (set_done (JBool false) task).
  split_and!; try done.
  intros Hdone. rewrite Hd2. f_equal. apply list_insert_id.
  rewrite Ht. f_equal. destruct task; simpl in *. by subst.
Qed.


(** ** The invariant of the store *)

(** The invariant speaks of ids and texts only. *)
Lemma store_invariant_fields (tasks1 tasks2 : TaskList) :
  List.map Task.id tasks1 = List.map Task.id tasks2 →
  List.map Task.text tasks1 = List.map Task.text tasks2 →
  store_invariant tasks1 → store_invariant tasks2.
Proof.
  unfold store_invariant. intros Hid Htext [Hnd Hne]. rewrite <- Hid.
  split; [done|].
  apply (List.Forall_map Task.text (λ s, s ≠ [])).
  rewrite <- Htext. by apply List.Forall_map.
Qed.

Lemma store_invariant_nil : store_invariant [].
Proof. split; constructor. Qed.

(** Appending a task with an unused id and a text that is not empty. *)
Lemma store_invariant_snoc (tasks : TaskList) (task : Task.t) :
  store_invariant tasks →
  Task.id task ∉ List.map Task.id tasks →
  Task.text task ≠ [] →
  store_invariant (tasks ++ [task]).
Proof.
  intros [Hnd Hne] Hfresh Htext. split.
  - rewrite List.map_app. apply NoDup_app. split_and!; [done| |].
    + intros x Hx [->|[]%elem_of_nil]%elem_of_cons. done.
    + apply NoDup_singleton.
  - apply Forall_app. by repeat constructor.
Qed.

(** Read back, a written list has the ids and the texts it was written
    with. *)
Lemma stored_tasks_write_ids_texts (tasks tasks' : TaskList) :
  stored_tasks (Doc (tasks_data_of tasks)) = OK tasks' →
  List.map Task.id tasks' = List.map Task.id tasks ∧
  List.map Task.text tasks' = List.map Task.text tasks.
Proof.
  intros H%stored_tasks_write_fields.
  induction H as [|t t' l l' [b ->] _ [IH1 IH2]]; [done|].
  simpl. by rewrite IH1, IH2.
Qed.

(** A tool name that is none of the three. *)
Lemma dispatch_unknown env tool_name arguments d :
  tool_name ≠ py "get_tasks" → tool_name ≠ py "add_task" →
  tool_name ≠ py "mark_done" →
  _handle_call_tool env tool_name arguments d =
  (error_result (Text (py "Unknown tool: " ++ tool_name)), d).
Proof.
  intros H1%str_eqb_neq H2%str_eqb_neq H3%str_eqb_neq.
  unfold _handle_call_tool. by rewrite H1, H2, H3.
Qed.

(** A call on a readable store leaves a readable store, the [done]
    argument being a Boolean when there is one. *)
Lemma call_keeps_readable env tool_name arguments d tasks b :
  stored_tasks d = OK tasks →
  dict_get (py "done") (JBool true) (arguments_or_empty arguments) = JBool b →
  ∃ tasks', stored_tasks (_handle_call_tool env tool_name arguments d).2
            = OK tasks'.
Proof.
  intros Hd Hdone.
  pose proof (stored_tasks_done d tasks Hd) as Hbool.
  destruct (decide (tool_name = py "get_tasks")) as [->|Hget].
  { rewrite get_tasks_run. by exists tasks. }
  destruct (decide (tool_name = py "add_task")) as [->|Hadd].
  { rewrite add_task_run. cbv zeta.
    destruct (dict_get (py "text") _ _) as [| | | |s| |]; try by exists tasks.
    destruct (strip s) as [|c text]; [by exists tasks|]. rewrite Hd.
    destruct (validate_optional_str _) as [due|e]; [|by exists tasks].
    eexists. apply stored_tasks_write_read, Forall_app. split; [done|].
    repeat constructor. by exists false. }
  destruct (decide (tool_name = py "mark_done")) as [->|Hmark].
  { rewrite mark_done_run. cbv zeta. rewrite Hd, Hdone.
    destruct (first_match _ tasks) as [i|]; [|by exists tasks].
    cbn [dump_error snd].
    eexists. apply stored_tasks_write_read, Forall_alter; [done|].
    intros. by exists b. }
  rewrite dispatch_unknown by done. by exists tasks.
Qed.

(** C5, as the code has it. No stored text is empty and, as long as
    [uuid4] hands [add_task] an id that no stored task has, the ids of the
    stored tasks are pairwise distinct. The store the start-up code creates
    is empty and has both properties. Every call, whatever the tool and the
    arguments, leaves a store without empty texts without empty texts; and
    it keeps the whole invariant when the id [uuid4] returns is not the id
    of a stored task. The code itself never compares the new id with the
    stored ones. *)
Theorem store_invariant_preserved env tool_name arguments d :
  (∀ tasks, stored_tasks d = OK tasks →
     Forall (λ task, Task.text task ≠ []) tasks) →
  stored_tasks (init_store NoFile) = OK [] ∧
  disk_invariant (init_store NoFile) ∧
  (∀ tasks',
     stored_tasks (_handle_call_tool env tool_name arguments d).2
     = OK tasks' →
     Forall (λ task, Task.text task ≠ []) tasks') ∧
  (disk_invariant d →
   (∀ tasks, stored_tasks d = OK tasks → uuid4 env ∉ List.map Task.id tasks) →
   disk_invariant (_handle_call_tool env tool_name arguments d).2).
Proof.
  intros Htexts.
  assert (∀ tasks',
     stored_tasks (_handle_call_tool env tool_name arguments d).2
     = OK tasks' →
     Forall (λ task, Task.text task ≠ []) tasks') as Htexts'.
  { destruct (decide (tool_name = py "get_tasks")) as [->|Hget].
    { by rewrite get_tasks_run. }
    destruct (decide (tool_name = py "add_task")) as [->|Hadd].
    { rewrite add_task_run. cbv zeta.
      destruct (dict_get (py "text") _ _) as [| | | |s| |]; try done.
      destruct (strip s) as [|c text] eqn:Es; [done|].
      destruct (stored_tasks d) as [tasks|e] eqn:Hd;
        [|cbn [snd]; by rewrite Hd].
      destruct (validate_optional_str _) as [due|e];
        [|cbn [snd]; by rewrite Hd].
      cbn [snd]. intros tasks' Hd'.
      rewrite (stored_tasks_snoc d tasks _ false Hd) in Hd' by done.
      injection Hd' as <-. apply Forall_app. split; [by apply Htexts|].
      by repeat constructor. }
    destruct (decide (tool_name = py "mark_done")) as [->|Hmark].
    { rewrite mark_done_run. cbv zeta.
      destruct (stored_tasks d) as [tasks|e] eqn:Hd;
        [|cbn [snd]; by rewrite Hd].
      destruct (first_match _ tasks) as [i|]; [|cbn [snd]; by rewrite Hd].
      destruct (dump_error _); [done|].
      cbn [snd]. intros tasks' [_ Htext]%stored_tasks_write_ids_texts.
      rewrite alter_set_done_texts in Htext.
      apply (List.Forall_map Task.text (λ s, s ≠ [])). rewrite Htext.
      apply List.Forall_map. by apply Htexts. }
    by rewrite dispatch_unknown. }
  split_and!; [done| |done|].
  { intros tasks [= <-]. apply store_invariant_nil. }
  intros Hinv Hfresh tasks' Hd'. split; [|by apply Htexts'].
  revert Hd'.
  destruct (decide (tool_name = py "get_tasks")) as [->|Hget].
  { rewrite get_tasks_run. intros Hd'. by apply Hinv. }
  destruct (decide (tool_name = py "add_task")) as [->|Hadd].
  { rewrite add_task_run. cbv zeta.
    destruct (dict_get (py "text") _ _) as [| | | |s| |];
      try (intros Hd'; by apply Hinv).
    destruct (strip s) as [|c text] eqn:Es; [intros Hd'; by apply Hinv|].
    destruct (stored_tasks d) as [tasks|e] eqn:Hd; [|cbn [snd]; by rewrite Hd].
    destruct (validate_optional_str _) as [due|e];
      [|intros Hd'; by apply Hinv].
    cbn [snd]. intros Hd'.
    rewrite (stored_tasks_snoc d tasks _ false Hd) in Hd' by done.
    injection Hd' as <-.
    apply store_invariant_snoc; [by apply Hinv|by apply Hfresh|done]. }
  destruct (decide (tool_name = py "mark_done")) as [->|Hmark].
  { rewrite mark_done_run. cbv zeta.
    destruct (stored_tasks d) as [tasks|e] eqn:Hd; [|cbn [snd]; by rewrite Hd].
    destruct (first_match _ tasks) as [i|]; [|intros Hd'; by apply Hinv].
    destruct (dump_error _); [done|].
    cbn [snd]. intros [Hid _]%stored_tasks_write_ids_texts.
    rewrite alter_set_done_ids in Hid. rewrite Hid. by apply Hinv. }
  rewrite dispatch_unknown by done. intros Hd'. by apply Hinv.
Qed.

(** ** [load]: what [_read_store] accepts *)

Lemma is_OK_true {A : Type} (r : result A) :
  is_OK r = true ↔ ∃ a, r = OK a.
Proof.
  destruct r; simpl; split; try done; [by eexists|by intros [? [=]]].
Qed.

(** Validation accepts exactly the records that match the schema. *)
Lemma Task_from_is_OK (item : json) :
  is_OK (Task_from item) = matches_Task_schema item.
Proof.
  destruct item as [| | | | | |members]; try reflexivity.
  unfold Task_from, matches_Task_schema, Task_init, required, optional,
    field_is.
  destruct (dict_lookup (py "id") members) as [[]|]; try reflexivity.
  destruct (dict_lookup (py "text") members) as [[]|]; try reflexivity.
  cbn [bindR validate_str is_string andb].
  destruct (dict_lookup (py "done") members) as [v|].
  - assert (is_OK (validate_bool v) = is_boolean v) as Hv.
    { unfold validate_bool, is_boolean.
      destruct v; try reflexivity; by destruct (lax_bool _). }
    destruct (validate_bool v); cbn [is_OK] in Hv; rewrite <- Hv;
      [|reflexivity].
    cbn [bindR andb].
    destruct (dict_lookup (py "created_at") members) as [[]|];
      try reflexivity.
    by destruct (dict_lookup (py "due_date") members) as [[]|].
  - cbn [bindR andb].
    destruct (dict_lookup (py "created_at") members) as [[]|];
      try reflexivity.
    by destruct (dict_lookup (py "due_date") members) as [[]|].
Qed.

Lemma Task_from_schema (item : json) :
  (∃ task, Task_from item = OK task) ↔ matches_Task_schema item = true.
Proof. by rewrite <- Task_from_is_OK, is_OK_true. Qed.

Lemma comprehension_schema (items : list json) :
  (∃ tasks, comprehension Task_from items = OK tasks) ↔
  Forall (λ item, matches_Task_schema item = true) items.
Proof.
  induction items as [|item items IH]; simpl.
  - split; [constructor|by eexists].
  - rewrite Forall_cons, <- IH, <- Task_from_schema. unfold bindR. split.
    + intros [tasks H]. destruct (Task_from item); [|done].
      destruct (comprehension _ _); [|done]. split; by eexists.
    + intros [[task ->] [tasks ->]]. by eexists.
Qed.

(** C7, as the code has it. [load] returns a task list exactly when the
    file holds a JSON object whose [tasks] value, an empty list when the
    field is missing, can be iterated and has only items that match the
    Task schema. So a document without a [tasks] field is read as the empty
    list, a record that lacks [id], [text] or [created_at] makes the load
    fail, and so does a file that is missing or is not JSON; on first run
    the start-up code has written an empty list, which is what is read. *)
Theorem load_accepts_schema :
  (∀ d,
     (∃ tasks, stored_tasks d = OK tasks) ↔
     ∃ members items,
       d = Doc (JObj members) ∧
       iterate (dict_get (py "tasks") (JArr []) members) = OK items ∧
       Forall (λ item, matches_Task_schema item = true) items) ∧
  (∀ members,
     dict_lookup (py "tasks") members = None →
     stored_tasks (Doc (JObj members)) = OK []) ∧
  (∀ members items record name,
     dict_lookup (py "tasks") members = Some (JArr items) →
     JObj record ∈ items →
     name ∈ [py "id"; py "text"; py "created_at"] →
     dict_lookup name record = None →
     ∃ e, stored_tasks (Doc (JObj members)) = Raise e) ∧
  (∃ e, stored_tasks NoFile = Raise e) ∧
  (∃ e, stored_tasks Garbled = Raise e) ∧
  stored_tasks (init_store NoFile) = OK [].
Proof.
  assert (∀ d,
     (∃ tasks, stored_tasks d = OK tasks) ↔
     ∃ members items,
       d = Doc (JObj members) ∧
       iterate (dict_get (py "tasks") (JArr []) members) = OK items ∧
       Forall (λ item, matches_Task_schema item = true) items) as Hiff.
  { intros d. rewrite stored_tasks_eq. split.
    - intros [tasks H]. destruct d as [| |raw]; try done.
      destruct raw as [| | | | | |members]; try done.
      cbn [load_file method_get bindR] in H.
      destruct (iterate _) as [items|] eqn:Ei; [|done].
      exists members, items. split_and!; [done..|].
      apply comprehension_schema. by exists tasks.
    - intros (members & items & -> & Hi & Hall).
      cbn [load_file method_get bindR]. rewrite Hi.
      by apply comprehension_schema. }
  split_and!; try done.
  - intros members Hm. rewrite stored_tasks_eq.
    cbn [load_file method_get bindR]. unfold dict_get. by rewrite Hm.
  - intros members items record name Hm Hin Hname Hmissing.
    destruct (stored_tasks (Doc (JObj members))) as [tasks|e] eqn:E;
      [|by eexists].
    assert (∃ tasks, stored_tasks (Doc (JObj members)) = OK tasks) as H
      by by eexists.
    apply Hiff in H as (members' & items' & [= <-] & Hi & Hall).
    unfold dict_get in Hi. rewrite Hm in Hi. injection Hi as <-.
    rewrite Forall_forall in Hall. specialize (Hall _ Hin).
    cbn [matches_Task_schema] in Hall. unfold field_is in Hall.
    repeat (apply elem_of_cons in Hname as [->|Hname];
            [rewrite Hmissing in Hall;
             by repeat (apply andb_true_iff in Hall as [Hall ?])|]).
    by apply elem_of_nil in Hname.
  - by eexists.
  - by eexists.
Qed.

(** ** The widget renderer *)

(** C8. For every task list, the JSON text that [_render_widget_html]
    prepares for the script element contains no ["</"]: every occurrence
    that the task data produced has been rewritten to ["<\/"]. The task
    data reaches the page through this text and no other way. *)
Theorem tasks_json_has_no_closing_tag :
  (∀ tasks : TaskList,
     contains (py "</") (tasks_json (tasks_data_of tasks)) = false) ∧
  (∀ tasks_data, contains (py "</") (tasks_json tasks_data) = false) ∧
  (∃ page, ∀ tasks : TaskList,
     _render_widget_html (tasks_data_of tasks) =
     OK (str_replace TASKS_JSON_placeholder
           (tasks_json (tasks_data_of tasks)) page)).
Proof.
  split_and!.
  - intros tasks. apply replace_close.
  - intros tasks_data. apply replace_close.
  - destruct _render_widget_html_eq as [page H]. by exists page.
Qed.

(** Reading the widget resource. *)
Lemma _handle_read_resource_template d :
  _handle_read_resource TEMPLATE_URI d =
  (let? tasks := stored_tasks d in
   let? text := _render_widget_html (tasks_data_of tasks) in
   OK {| contents := [text]; error := None |}, d).
Proof.
  unfold _handle_read_resource. rewrite str_eqb_refl.
  unfold bindM, raise_from, ret. rewrite _read_store_eq.
  destruct (stored_tasks d) as [tasks|]; [|done]. cbn [bindR].
  by destruct (_render_widget_html _).
Qed.

(** C9. The page is a function of the task list and the asset version and
    of nothing else: for one asset version, two data files that hold the
    same task list are rendered to the same page, by the resource handler
    and in the widget of a tool response alike, whatever the identifier
    and the time drawn for each call and whatever the arguments. *)
Theorem widget_html_deterministic
    env1 env2 arguments1 arguments2 d1 d2 tasks :
  stored_tasks d1 = OK tasks →
  stored_tasks d2 = OK tasks →
  ∃ page,
    _render_widget_html (tasks_data_of tasks) = OK page ∧
    (_handle_read_resource TEMPLATE_URI d1).1
    = OK {| contents := [page]; error := None |} ∧
    (_handle_read_resource TEMPLATE_URI d2).1
    = OK {| contents := [page]; error := None |} ∧
    (html ∘ openai_widget) <$>
      _meta (_handle_call_tool env1 (py "get_tasks") arguments1 d1).1
    = Some page ∧
    (html ∘ openai_widget) <$>
      _meta (_handle_call_tool env2 (py "get_tasks") arguments2 d2).1
    = Some page.
Proof.
  intros H1 H2.
  destruct (_render_widget_html_total (tasks_data_of tasks)) as [page Hpage].
  exists page. rewrite !_handle_read_resource_template, !get_tasks_run.
  cbn [fst]. rewrite H1, H2. cbn [bindR]. rewrite Hpage. cbn [bindR].
  unfold _meta_with_widget, _embedded_widget_resource.
  rewrite Hpage. done.
Qed.

(** * Further properties of the dispatcher *)

(** Every call ends in one of five ways: an error result with the file as
    it was; the stored list returned; the stored list with a task appended,
    written and returned; the stored list with [done] assigned in one task,
    written and returned; or, the dump of that [done] raising, an error
    result with the file emptied. *)
Lemma call_outcome env tool_name arguments d :
  let r := (_handle_call_tool env tool_name arguments d).1 in
  let d' := (_handle_call_tool env tool_name arguments d).2 in
  let args := arguments_or_empty arguments in
  (∃ m, r = error_result m ∧ d' = d) ∨
  (∃ tasks tasks' m meta,
     stored_tasks d = OK tasks ∧
     r = widget_result m (tasks_data_of tasks') meta ∧
     _meta_with_widget (tasks_data_of tasks') = OK meta ∧
     ((tool_name = py "get_tasks" ∧ tasks' = tasks ∧ d' = d) ∨
      (tool_name = py "add_task" ∧ d' = Doc (tasks_data_of tasks') ∧
       ∃ s due_date,
         dict_get (py "text") (JStr []) args = JStr s ∧ strip s ≠ [] ∧
         validate_optional_str (dict_get (py "due_date") JNull args)
         = OK due_date ∧
         tasks' = tasks ++ [Task.mk (uuid4 env) (strip s) (JBool false)
                              (utcnow_isoformat env ++ py "Z") due_date]) ∨
      (tool_name = py "mark_done" ∧ d' = Doc (tasks_data_of tasks') ∧
       ∃ i task,
         first_match (dict_get (py "task_id") JNull args) tasks = Some i ∧
         tasks !! i = Some task ∧
         dump_error (dict_get (py "done") (JBool true) args) = None ∧
         tasks' = <[i := set_done (dict_get (py "done") (JBool true) args)
                           task]> tasks))) ∨
  (∃ tasks i task e,
     tool_name = py "mark_done" ∧
     stored_tasks d = OK tasks ∧
     first_match (dict_get (py "task_id") JNull args) tasks = Some i ∧
     tasks !! i = Some task ∧
     dump_error (dict_get (py "done") (JBool true) args) = Some e ∧
     r = error_result (Failure e) ∧ d' = Garbled).
Proof.
  cbv zeta.
  destruct (decide (tool_name = py "get_tasks")) as [->|Hget].
  { rewrite get_tasks_run. cbn [fst snd].
    destruct (stored_tasks d) as [tasks|e]; [|left; by eexists].
    destruct (_meta_with_widget _) as [meta|e] eqn:Hm;
      [|left; by exists (Failure e)].
    right; left.
    exists tasks, tasks, (Text (py "Here are your tasks!")), meta.
    split_and!; [done..|]. by left. }
  destruct (decide (tool_name = py "add_task")) as [->|Hadd].
  { rewrite add_task_run. cbv zeta.
    destruct (dict_get (py "text") _ _) as [| | | |s| |] eqn:Ht;
      try (left; by eexists).
    destruct (strip s) as [|c text] eqn:Es; [left; by eexists|].
    destruct (stored_tasks d) as [tasks|e]; [|left; by eexists].
    destruct (validate_optional_str _) as [due|e] eqn:Hdue;
      [|left; by eexists].
    cbn [fst snd].
    destruct (_meta_with_widget _) as [meta|e] eqn:Hm.
    - right; left. exists tasks. eexists _, _, meta. split_and!; [done..|].
      right; left. split_and!; [done..|]. exists s, due.
      rewrite Es. by split_and!.
    - exfalso. destruct (_meta_with_widget_total
        (tasks_data_of (tasks ++ [Task.mk (uuid4 env) (c :: text)
           (JBool false) (utcnow_isoformat env ++ py "Z") due]))) as [? H'].
      congruence. }
  destruct (decide (tool_name = py "mark_done")) as [->|Hmark].
  { rewrite mark_done_run. cbv zeta.
    destruct (stored_tasks d) as [tasks|e]; [|left; by eexists].
    destruct (first_match _ tasks) as [i|] eqn:Hi; [|left; by eexists].
    destruct (first_match_Some _ _ _ Hi) as (task & Hti & _ & _).
    rewrite (alter_insert _ _ _ _ Hti).
    destruct (dump_error _) as [e|] eqn:Hw; cbn [fst snd].
    { right; right. by exists tasks, i, task, e. }
    destruct (_meta_with_widget _) as [meta|e] eqn:Hm.
    - right; left. exists tasks. eexists _, _, meta. split_and!; [done..|].
      right; right. split_and!; [done..|]. by exists i, task.
    - exfalso. destruct (_meta_with_widget_total
        (tasks_data_of (<[i := set_done (dict_get (py "done") (JBool true)
           (arguments_or_empty arguments)) task]> tasks))) as [? H'].
      congruence. }
  rewrite dispatch_unknown by done. left. by eexists.
Qed.


(** X2. Every response carries exactly one text block, and the structured
    payload and the widget are there exactly when the error flag is not
    set. *)
Theorem response_shape env tool_name arguments d :
  let r := (_handle_call_tool env tool_name arguments d).1 in
  length (content r) = 1%nat ∧
  (isError r = false ↔ is_Some (structuredContent r)) ∧
  (isError r = false ↔ is_Some (_meta r)).
Proof.
  cbv zeta.
  destruct (call_outcome env tool_name arguments d)
    as [(m & -> & _)|[(tasks & tasks' & m & meta & _ & -> & _)
                     |(tasks & i & task & e & _ & _ & _ & _ & _ & -> & _)]];
    cbn.
  - split_and!; [done|split; [done|by intros [? [=]]]..].
  - split_and!; [done|split; [by eexists|done]..].
  - split_and!; [done|split; [done|by intros [? [=]]]..].
Qed.

(** X3. A store that cannot be loaded stays that way: every call answers
    with the error flag and the file is what it was. No tool repairs or
    replaces a broken file. *)
Theorem unreadable_store_stays env tool_name arguments d e :
  stored_tasks d = Raise e →
  isError (_handle_call_tool env tool_name arguments d).1 = true ∧
  (_handle_call_tool env tool_name arguments d).2 = d.
Proof.
  intros Hd.
  destruct (call_outcome env tool_name arguments d)
    as [(m & -> & ->)|[(tasks & tasks' & m & meta & Hd' & _)
                      |(tasks & i & task & e' & _ & Hd' & _)]];
    [done|congruence..].
Qed.

(** What a call that succeeded left in the file reads back as the list of
    its payload, [done] being a Boolean when it was given. *)
Lemma success_stored env tool_name arguments d b :
  dict_get (py "done") (JBool true) (arguments_or_empty arguments) = JBool b →
  isError (_handle_call_tool env tool_name arguments d).1 = false →
  ∃ tasks',
    structuredContent (_handle_call_tool env tool_name arguments d).1
    = Some (tasks_data_of tasks') ∧
    stored_tasks (_handle_call_tool env tool_name arguments d).2 = OK tasks'.
Proof.
  intros Hb.
  destruct (call_outcome env tool_name arguments d)
    as [(m & -> & _)|[(tasks & tasks' & m & meta & Hd & -> & _ & Hcase)
                     |(tasks & i & task & e & _ & _ & _ & _ & _ & -> & _)]];
    [done| |done].
  intros _. exists tasks'. split; [done|].
  pose proof (stored_tasks_done d tasks Hd) as Hbool.
  destruct Hcase as [(_ & -> & ->)|[(_ & -> & s & due & _ & _ & _ & ->)
                                   |(_ & -> & i & task & _ & _ & _ & ->)]].
  - done.
  - by eapply stored_tasks_snoc.
  - apply stored_tasks_write_read, Forall_insert; [done|].
    rewrite Hb. by exists b.
Qed.


Lemma same_fields_refl (tasks : TaskList) : Forall2 same_fields tasks tasks.
Proof. induction tasks; constructor; [done|done]. Qed.

(** X5. With a [done] that is a Boolean when it is given, no call removes,
    reorders or rewrites a task: a store that loaded before the call loads
    after it, and its list is the list stored before, each task with its
    id, text, creation time and due date, followed by at most one new
    task. *)
Theorem tasks_are_kept env tool_name arguments d tasks b :
  stored_tasks d = OK tasks →
  dict_get (py "done") (JBool true) (arguments_or_empty arguments) = JBool b →
  ∃ kept added,
    stored_tasks (_handle_call_tool env tool_name arguments d).2
    = OK (kept ++ added) ∧
    (length added ≤ 1)%nat ∧
    Forall2 same_fields tasks kept.
Proof.
  intros Hd Hb.
  pose proof (stored_tasks_done d tasks Hd) as Hbool.
  destruct (call_keeps_readable env tool_name arguments d tasks b Hd Hb)
    as [tasks' Hd'].
  rewrite Hd'. revert Hd'.
  destruct (call_outcome env tool_name arguments d)
    as [(m & _ & ->)|[(tasks0 & tasks1 & m & meta & Hd0 & _ & _ & Hcase)
                     |(tasks0 & i & task & e & _ & _ & _ & _ & Hw & _)]].
  - intros Hd'. exists tasks, []. rewrite app_nil_r.
    split_and!; [congruence|simpl; lia|apply same_fields_refl].
  - assert (tasks0 = tasks) as -> by congruence.
    destruct Hcase as [(_ & -> & ->)|[(_ & -> & s & due & _ & _ & _ & ->)
                                     |(_ & -> & i & task & _ & Hti & _ & ->)]].
    + intros Hd'. exists tasks, []. rewrite app_nil_r.
      split_and!; [congruence|simpl; lia|apply same_fields_refl].
    + erewrite stored_tasks_snoc by done. intros [= <-].
      exists tasks. eexists.
      split_and!; [done|simpl; lia|apply same_fields_refl].
    + intros Hd'.
      destruct (read_back_assigned tasks tasks' i task _ Hbool Hti Hd')
        as (b' & _ & ->).
      exists (<[i := set_done (JBool b') task]> tasks), [].
      rewrite app_nil_r. split_and!; [done|simpl; lia|].
      rewrite <- (list_insert_id tasks i task Hti) at 1.
      apply Forall2_insert; [apply same_fields_refl|done].
  - by rewrite Hb in Hw.
Qed.

(** X6. [mark_done] twice with the same arguments: the second call leaves
    the file as the first one left it, whatever [done] was given; with a
    Boolean [done] it also returns the same payload and error flag. *)
Theorem mark_done_twice env1 env2 arguments d :
  let c1 := _handle_call_tool env1 (py "mark_done") arguments d in
  let c2 := _handle_call_tool env2 (py "mark_done") arguments c1.2 in
  c2.2 = c1.2 ∧
  ∀ b,
    dict_get (py "done") (JBool true) (arguments_or_empty arguments)
    = JBool b →
    isError c2.1 = isError c1.1 ∧
    structuredContent c2.1 = structuredContent c1.1.
Proof.
  cbv zeta. rewrite (mark_done_run env1). cbv zeta.
  destruct (stored_tasks d) as [tasks|e] eqn:Hd.
  2:{ cbn [fst snd]. rewrite mark_done_run. cbv zeta. by rewrite Hd. }
  destruct (first_match _ tasks) as [i|] eqn:Hi.
  2:{ cbn [fst snd]. rewrite mark_done_run. cbv zeta. by rewrite Hd, Hi. }
  destruct (first_match_Some _ _ _ Hi) as (task & Hti & _ & _).
  pose proof (stored_tasks_done d tasks Hd) as Hbool.
  rewrite (alter_insert _ _ _ _ Hti).
  set (v := dict_get (py "done") (JBool true) _).
  set (tasks1 := <[i := set_done v task]> tasks).
  destruct (dump_error v) as [e|] eqn:Hw; cbn [fst snd].
  { rewrite mark_done_run. cbv zeta. cbn [stored_tasks fst snd]. split; [done|].
    intros b Hb. by rewrite Hb in Hw. }
  destruct (_meta_with_widget_total (tasks_data_of tasks1)) as [meta Hmeta].
  rewrite Hmeta. rewrite mark_done_run. cbv zeta. fold v.
  destruct (stored_tasks (Doc (tasks_data_of tasks1))) as [tasks2|e] eqn:Hd1.
  - destruct (read_back_assigned tasks tasks2 i task v Hbool Hti Hd1)
      as (b & Hv & ->).
    assert (first_match
              (dict_get (py "task_id") JNull (arguments_or_empty arguments))
              (<[i := set_done (JBool b) task]> tasks) = Some i) as ->.
    { rewrite <- Hi. apply first_match_ids.
      rewrite <- (alter_insert (set_done (JBool b)) i tasks task Hti).
      apply alter_set_done_ids. }
    rewrite (alter_insert _ i _ (set_done (JBool b) task)).
    2:{ apply list_lookup_insert_eq. by eapply lookup_lt_Some. }
    rewrite list_insert_insert_eq.
    change (set_done v (set_done (JBool b) task)) with (set_done v task).
    fold tasks1. rewrite Hw, Hmeta. by cbn.
  - cbn [fst snd]. split; [done|]. intros b Hb. exfalso.
    rewrite stored_tasks_write_read in Hd1; [done|].
    apply Forall_insert; [done|]. rewrite Hb. by exists b.
Qed.

Lemma first_match_snoc (tid : pystr) (tasks : TaskList) (task : Task.t) :
  tid ∉ List.map Task.id tasks →
  Task.id task = tid →
  first_match (JStr tid) (tasks ++ [task]) = Some (length tasks).
Proof.
  intros Hfresh Hid. induction tasks as [|t rest IH]; simpl.
  - rewrite Hid, str_eqb_refl. done.
  - destruct (str_eqb (Task.id t) tid) eqn:E.
    + apply str_eqb_eq in E. destruct Hfresh. simpl. rewrite E. left.
    + rewrite IH; [done|]. intros Hin. apply Hfresh. simpl. by right.
Qed.

(** X7. The id of a task that was just added selects that task: after a
    successful [add_task] whose id no stored task had, [mark_done] with this
    id succeeds and changes the new task, the last of the list, and none of
    the tasks stored before. *)
Theorem mark_done_after_add env arguments d tasks env' b :
  stored_tasks d = OK tasks →
  uuid4 env ∉ List.map Task.id tasks →
  isError (_handle_call_tool env (py "add_task") arguments d).1 = false →
  let d' := (_handle_call_tool env (py "add_task") arguments d).2 in
  let c := _handle_call_tool env' (py "mark_done")
             (Some [(py "task_id", JStr (uuid4 env)); (py "done", JBool b)])
             d' in
  ∃ new_task,
    stored_tasks d' = OK (tasks ++ [new_task]) ∧
    Task.id new_task = uuid4 env ∧
    isError c.1 = false ∧
    stored_tasks c.2 = OK (tasks ++ [set_done (JBool b) new_task]).
Proof.
  intros Hd Hfresh Hr. cbv zeta.
  destruct (call_outcome env (py "add_task") arguments d)
    as [(m & Hm & _)|[(tasks0 & tasks1 & m & meta & Hd0 & _ & _ & Hcase)
                     |(? & ? & ? & ? & [=] & _)]].
  { rewrite Hm in Hr. done. }
  assert (tasks0 = tasks) as -> by congruence.
  destruct Hcase as [([=] & _)|[(_ & -> & s & due & _ & _ & _ & ->)
                               |([=] & _)]].
  set (new_task := Task.mk _ _ _ _ _).
  assert (stored_tasks (Doc (tasks_data_of (tasks ++ [new_task])))
          = OK (tasks ++ [new_task])) as Hd'
    by by eapply stored_tasks_snoc.
  exists new_task. split_and!; [done..| |].
  - destruct (mark_done_found env'
                (Some [(py "task_id", JStr (uuid4 env)); (py "done", JBool b)])
                _ (tasks ++ [new_task]) (length tasks) new_task Hd')
      as (r & -> & Hrr); [|by apply list_lookup_middle|done|done].
    by apply first_match_snoc.
  - destruct (mark_done_found env'
                (Some [(py "task_id", JStr (uuid4 env)); (py "done", JBool b)])
                _ (tasks ++ [new_task]) (length tasks) new_task Hd')
      as (r & -> & Hrr); [|by apply list_lookup_middle|done|].
    { by apply first_match_snoc. }
    cbn [snd].
    change (dict_get (py "done") (JBool true) _) with (JBool b).
    rewrite insert_app_r_alt by done. rewrite Nat.sub_diag. cbn [insert list_insert].
    by eapply stored_tasks_snoc.
Qed.


(** X9. A text that is not a string is refused: [add_task] with a number,
    a Boolean, null, a list or an object as [text] answers with the failure
    of the method call, in every state of the file, and writes nothing. *)
Theorem add_task_text_not_a_string env arguments d v :
  dict_lookup (py "text") (arguments_or_empty arguments) = Some v →
  is_string v = false →
  _handle_call_tool env (py "add_task") arguments d
  = (error_result (Failure AttributeError), d).
Proof.
  intros Hv Hs. rewrite add_task_run. cbv zeta. unfold dict_get.
  rewrite Hv. by destruct v.
Qed.


(** * The resource handler *)

(** X11. Reading a resource never writes the file. For any URI but the
    widget's it returns no content and the message that names the URI,
    without looking at the store; for the widget's URI it returns the page
    when the store loads and raises the load's exception when it does not:
    nothing catches it here. *)
Theorem read_resource_outcome req_uri d :
  (_handle_read_resource req_uri d).2 = d ∧
  (req_uri ≠ TEMPLATE_URI →
   (_handle_read_resource req_uri d).1
   = OK {| contents := [];
           error := Some (py "Unknown resource: " ++ req_uri) |}) ∧
  (req_uri = TEMPLATE_URI →
   match stored_tasks d with
   | OK tasks =>
       ∃ page,
         _render_widget_html (tasks_data_of tasks) = OK page ∧
         (_handle_read_resource req_uri d).1
         = OK {| contents := [page]; error := None |}
   | Raise e => (_handle_read_resource req_uri d).1 = Raise e
   end).
Proof.
  split_and!.
  - unfold _handle_read_resource. destruct (str_eqb _ _); [|done].
    unfold bindM, raise_from, ret. rewrite _read_store_eq.
    destruct (stored_tasks d); [|done].
    by destruct (_render_widget_html _).
  - intros Hne%str_eqb_neq. unfold _handle_read_resource. by rewrite Hne.
  - intros ->. rewrite _handle_read_resource_template. cbn [fst].
    destruct (stored_tasks d) as [tasks|e]; [|done]. cbn [bindR].
    destruct (_render_widget_html_total (tasks_data_of tasks)) as [page Hp].
    exists page. by rewrite Hp.
Qed.

(** * The listings against the handlers *)

Lemma listed_tool_names :
  List.map Tool.name _list_tools
  = [py "get_tasks"; py "add_task"; py "mark_done"].
Proof. reflexivity. Qed.

(** X12. The dispatcher knows exactly the tools that are listed: a call is
    answered with the unknown-tool error if and only if its name is not
    the name of a tool of [_list_tools]. *)
Theorem unknown_tool_iff_not_listed env tool_name arguments d :
  (_handle_call_tool env tool_name arguments d).1
  = error_result (Text (py "Unknown tool: " ++ tool_name)) ↔
  tool_name ∉ List.map Tool.name _list_tools.
Proof.
  rewrite listed_tool_names. split.
  - intros Hr Hin.
    apply elem_of_cons in Hin as [->|Hin].
    { revert Hr. rewrite get_tasks_run. cbn [fst].
      destruct (stored_tasks d); [|done]. by destruct (_meta_with_widget _). }
    apply elem_of_cons in Hin as [->|Hin].
    { revert Hr. rewrite add_task_run. cbv zeta.
      destruct (dict_get (py "text") _ _); try done.
      destruct (strip _); [by vm_compute|].
      destruct (stored_tasks d); [|done].
      destruct (validate_optional_str _); [|done]. cbn [fst].
      by destruct (_meta_with_widget _). }
    apply elem_of_cons in Hin as [->|Hin]; [|by apply elem_of_nil in Hin].
    revert Hr. rewrite mark_done_run. cbv zeta.
    destruct (stored_tasks d); [|done].
    destruct (first_match _ _); [|done].
    destruct (dump_error _); [done|]. cbn [fst].
    by destruct (_meta_with_widget _).
  - intros Hnot. rewrite dispatch_unknown; [done|..];
      intros ->; apply Hnot;
      repeat first [apply list_elem_of_here | apply list_elem_of_further].
Qed.

Lemma first_match_null (tasks : TaskList) : first_match JNull tasks = None.
Proof. apply first_match_None. induction tasks; by constructor. Qed.

(** X13. The arguments an input schema lists as required are enforced by
    the handler, not by the schema: a call of a listed tool that lacks one
    of them is answered with the error flag and writes nothing. *)
Theorem required_arguments_enforced tool name env arguments d :
  tool ∈ _list_tools →
  name ∈ required_arguments (Tool.inputSchema tool) →
  dict_lookup name (arguments_or_empty arguments) = None →
  isError (_handle_call_tool env (Tool.name tool) arguments d).1 = true ∧
  (_handle_call_tool env (Tool.name tool) arguments d).2 = d.
Proof.
  intros Htool Hname Hmissing.
  apply elem_of_cons in Htool as [->|Htool].
  { by apply elem_of_nil in Hname. }
  apply elem_of_cons in Htool as [->|Htool].
  { apply list_elem_of_singleton in Hname as ->. cbn [Tool.name].
    rewrite add_task_run. cbv zeta. unfold dict_get.
    rewrite Hmissing. done. }
  apply elem_of_cons in Htool as [->|Htool]; [|by apply elem_of_nil in Htool].
  apply list_elem_of_singleton in Hname as ->. cbn [Tool.name].
  rewrite mark_done_run. cbv zeta. unfold dict_get.
  rewrite Hmissing. destruct (stored_tasks d); [|done].
  by rewrite first_match_null.
Qed.

(** X14. Every listed tool is annotated as read-only and not destructive,
    [add_task] and [mark_done] included, yet these two write: a successful
    [add_task] always leaves a file that differs from the one before, and
    so does a [mark_done] that assigns a Boolean other than the task's
    [done]. *)
Theorem read_only_hint_on_writing_tools :
  (∀ tool, tool ∈ _list_tools →
     annotation (py "readOnlyHint") (Tool._meta tool) = Some (JBool true) ∧
     annotation (py "destructiveHint") (Tool._meta tool)
     = Some (JBool false)) ∧
  (∀ env arguments d,
     isError (_handle_call_tool env (py "add_task") arguments d).1 = false →
     (_handle_call_tool env (py "add_task") arguments d).2 ≠ d) ∧
  (∀ env arguments d tasks i task b,
     stored_tasks d = OK tasks →
     first_match (dict_get (py "task_id") JNull (arguments_or_empty arguments))
       tasks = Some i →
     tasks !! i = Some task →
     dict_get (py "done") (JBool true) (arguments_or_empty arguments)
     = JBool b →
     Task.done task ≠ JBool b →
     (_handle_call_tool env (py "mark_done") arguments d).2 ≠ d).
Proof.
  split_and!.
  - intros tool Htool.
    repeat (apply elem_of_cons in Htool as [->|Htool]; [by vm_compute|]).
    by apply elem_of_nil in Htool.
  - intros env arguments d Hr Heq.
    destruct (call_outcome env (py "add_task") arguments d)
      as [(m & Hm & _)|[(tasks & tasks' & m & meta & Hd & _ & _ & Hcase)
                       |(? & ? & ? & ? & [=] & _)]].
    { by rewrite Hm in Hr. }
    destruct Hcase as [([=] & _)|[(_ & Hd' & s & due & _ & _ & _ & ->)
                                 |([=] & _)]].
    set (new_task := Task.mk _ _ _ _ _) in *.
    pose proof (stored_tasks_snoc d tasks new_task false Hd eq_refl) as Hnew.
    rewrite <- Hd', Heq, Hd in Hnew. injection Hnew as Hnew.
    apply (f_equal length) in Hnew. rewrite length_app in Hnew.
    simpl in Hnew. lia.
  - intros env arguments d tasks i task b Hd Hi Hti Hb Hne Heq.
    destruct (mark_done_found env arguments d tasks i task Hd Hi Hti)
      as (r & Hcall & _); [by rewrite Hb|].
    rewrite Hcall, Hb in Heq. cbn [snd] in Heq.
    assert (stored_tasks
              (Doc (tasks_data_of (<[i := set_done (JBool b) task]> tasks)))
            = OK (<[i := set_done (JBool b) task]> tasks)) as Hnew.
    { apply stored_tasks_write_read, Forall_insert;
        [by eapply stored_tasks_done|by exists b]. }
    rewrite Heq, Hd in Hnew. injection Hnew as Hnew.
    apply (f_equal (λ l, l !! i)) in Hnew.
    rewrite list_lookup_insert_eq in Hnew by by eapply lookup_lt_Some.
    rewrite Hti in Hnew. injection Hnew as Hnew. apply Hne.
    by rewrite Hnew.
Qed.

(** X15. The resource handler serves exactly what is listed: a read is
    answered with the unknown-resource message if and only if its URI is
    not the URI of a listed resource, and the resource templates list the
    same URIs and MIME types as the resources do. *)
Theorem unknown_resource_iff_not_listed req_uri d :
  ((_handle_read_resource req_uri d).1
   = OK {| contents := [];
           error := Some (py "Unknown resource: " ++ req_uri) |} ↔
   req_uri ∉ List.map Resource.uri _list_resources) ∧
  List.map ResourceTemplate.uriTemplate _list_resource_templates
  = List.map Resource.uri _list_resources ∧
  List.map ResourceTemplate.mimeType _list_resource_templates
  = List.map Resource.mimeType _list_resources.
Proof.
  split_and!; [|done..].
  change (List.map Resource.uri _list_resources) with [TEMPLATE_URI].
  rewrite list_elem_of_singleton. split.
  - intros Hr ->. revert Hr. rewrite _handle_read_resource_template.
    cbn [fst]. destruct (stored_tasks d); [|done]. cbn [bindR].
    by destruct (_render_widget_html _).
  - intros Hne%str_eqb_neq. unfold _handle_read_resource. by rewrite Hne.
Qed.


Lemma dict_get_other (k k' : pystr) (v default : json) (args : dict) :
  k ≠ k' → dict_get k' default ((k, v) :: args) = dict_get k' default args.
Proof.
  intros Hne%str_eqb_neq. unfold dict_get. simpl. by rewrite Hne.
Qed.

(** X17. Arguments the handlers do not know are ignored, not refused: a
    call with an extra argument under any name other than [text],
    [due_date], [task_id] and [done] gives the response and the file of the
    call without it. *)
Theorem unknown_arguments_ignored env tool_name k v (args : dict) d :
  k ∉ [py "text"; py "due_date"; py "task_id"; py "done"] →
  _handle_call_tool env tool_name (Some ((k, v) :: args)) d
  = _handle_call_tool env tool_name (Some args) d.
Proof.
  intros Hk.
  assert (k ≠ py "text" ∧ k ≠ py "due_date" ∧ k ≠ py "task_id"
          ∧ k ≠ py "done") as (H1 & H2 & H3 & H4).
  { split_and!; intros ->; apply Hk;
      repeat first [apply list_elem_of_here | apply list_elem_of_further]. }
  destruct (decide (tool_name = py "get_tasks")) as [->|Hget].
  { by rewrite !get_tasks_run. }
  destruct (decide (tool_name = py "add_task")) as [->|Hadd].
  { rewrite !add_task_run. cbv zeta. cbn [arguments_or_empty].
    by rewrite !dict_get_other. }
  destruct (decide (tool_name = py "mark_done")) as [->|Hmark].
  { rewrite !mark_done_run. cbv zeta. cbn [arguments_or_empty].
    by rewrite !dict_get_other. }
  by rewrite !dispatch_unknown.
Qed.

(** * The page and the task list *)

(** The formatted template, for every asset version. *)
Lemma formatted_page :
  str_format TODO_WIDGET_HTML
    [(py "CSS_PATH",
      rstrip (py "/") WIDGET_ASSET_ROUTE ++ py "/todo.css?v="
      ++ WIDGET_ASSET_VERSION);
     (py "JS_PATH",
      rstrip (py "/") WIDGET_ASSET_ROUTE ++ py "/todo.js?v="
      ++ WIDGET_ASSET_VERSION);
     (py "WIDGET_VERSION", WIDGET_ASSET_VERSION)]
  = OK (join WIDGET_ASSET_VERSION page_parts).
Proof. vm_compute. reflexivity. Qed.

(** A character that the pattern does not have separates the places where
    the pattern can occur. *)
Lemma starts_with_sep (p l b : pystr) (x : N) :
  existsb (N.eqb x) p = false →
  p ≠ [] →
  starts_with p (l ++ x :: b) = starts_with p l.
Proof.
  revert l; induction p as [|y p IH]; intros l Hx Hp; [done|].
  simpl in Hx. apply orb_false_iff in Hx as [Hxy Hx].
  destruct l as [|c l]; simpl.
  - rewrite N.eqb_sym, Hxy. done.
  - destruct p as [|z p]; [by destruct (y =? c)|].
    by rewrite IH.
Qed.

Lemma contains_sep (p a b : pystr) (x : N) :
  existsb (N.eqb x) p = false →
  p ≠ [] →
  contains p (a ++ x :: b) = contains p a || contains p b.
Proof.
  intros Hx Hp. induction a as [|c a IH].
  - destruct p as [|y p]; [done|]. simpl in *.
    apply orb_false_iff in Hx as [Hxy _]. by rewrite N.eqb_sym, Hxy.
  - change (contains p ((c :: a) ++ x :: b))
      with (starts_with p ((c :: a) ++ x :: b) || contains p (a ++ x :: b)).
    change (contains p (c :: a)) with (starts_with p (c :: a) || contains p a).
    rewrite starts_with_sep, IH by done. by rewrite orb_assoc.
Qed.

Lemma contains_after (p a b : pystr) (x : N) :
  last a = Some x →
  existsb (N.eqb x) p = false →
  p ≠ [] →
  contains p (a ++ b) = contains p a || contains p b.
Proof.
  intros Hlast Hx Hp.
  destruct a as [|c a] using rev_ind; [done|].
  rewrite last_snoc in Hlast. injection Hlast as ->.
  rewrite <- app_assoc. cbn [app]. rewrite !contains_sep by done.
  destruct p; [done|]. cbn. by rewrite orb_false_r.
Qed.

Lemma contains_before (p a b : pystr) (y : N) :
  head b = Some y →
  existsb (N.eqb y) p = false →
  p ≠ [] →
  contains p (a ++ b) = contains p a || contains p b.
Proof.
  intros Hhead Hy Hp. destruct b as [|c b]; [done|].
  injection Hhead as ->. rewrite contains_sep by done.
  destruct p as [|z p]; [done|]. cbn [contains starts_with].
  simpl in Hy. apply orb_false_iff in Hy as [Hy _].
  by rewrite N.eqb_sym, Hy.
Qed.

(** Where a pattern without [=] and the quotation mark can occur in the
    page: in the asset version or in one of the parts around it. *)
Lemma contains_page (p : pystr) :
  existsb (N.eqb 61) p = false →
  existsb (N.eqb 34) p = false →
  p ≠ [] →
  contains p (join WIDGET_ASSET_VERSION page_parts)
  = contains p WIDGET_ASSET_VERSION
    || existsb (contains p) page_parts.
Proof.
  intros H61 H34 Hp.
  assert (∃ p1 p2 p3 p4,
            page_parts = [p1; p2; p3; p4] ∧
            last p1 = Some 61 ∧ head p2 = Some 34 ∧ last p2 = Some 34 ∧
            head p3 = Some 34 ∧ last p3 = Some 61 ∧ head p4 = Some 34)
    as (p1 & p2 & p3 & p4 & -> & L1 & F2 & L2 & F3 & L3 & F4).
  { do 4 eexists. split; [vm_compute; reflexivity|].
    by vm_compute. }
  cbn [join existsb].
  set (v := WIDGET_ASSET_VERSION).
  rewrite (contains_after p p1 _ 61) by done.
  rewrite (contains_before p v (p2 ++ _) 34)
    by first [done | by destruct p2].
  rewrite (contains_after p p2 _ 34) by done.
  rewrite (contains_before p v (p3 ++ _) 34)
    by first [done | by destruct p3].
  rewrite (contains_after p p3 _ 61) by done.
  rewrite (contains_before p v p4 34) by done.
  destruct (contains p v), (contains p p1), (contains p p2),
    (contains p p3), (contains p p4); reflexivity.
Qed.

(** X18. The page does not carry the task list. [format] turns the doubled
    braces around [TASKS_JSON] into single ones before [replace] looks for
    the doubled ones, so for every asset version that does not itself
    contain [{{TASKS_JSON}}] the page is the formatted template, the same
    for every task list, with [{TASKS_JSON}] standing in the script element
    where the JSON was meant to go. *)
Theorem page_ignores_task_list (tasks_data : json) :
  contains TASKS_JSON_placeholder WIDGET_ASSET_VERSION = false →
  _render_widget_html tasks_data
  = OK (join WIDGET_ASSET_VERSION page_parts) ∧
  contains (py "{TASKS_JSON}") (join WIDGET_ASSET_VERSION page_parts) = true.
Proof.
  intros Hversion. split.
  - unfold _render_widget_html. cbv zeta. rewrite formatted_page.
    cbn [bindR]. f_equal.
    change (str_replace TASKS_JSON_placeholder ?j ?s)
      with (replace_from TASKS_JSON_placeholder j 0 s).
    apply replace_from_absent.
    rewrite contains_page, Hversion by by vm_compute.
    by vm_compute.
  - rewrite contains_page by by vm_compute.
    apply orb_true_iff. right. by vm_compute.
Qed.

(** * The JSON text *)

(** Induction on a JSON value with its items and members. *)
Lemma json_nested_ind (P : json → Prop) :
  P JNull → (∀ b, P (JBool b)) → (∀ n, P (JInt n)) → (∀ f, P (JFloat f)) →
  (∀ s, P (JStr s)) →
  (∀ items, Forall P items → P (JArr items)) →
  (∀ members, Forall (λ kv, P kv.2) members → P (JObj members)) →
  ∀ v, P v.
Proof.
  intros HNull HBool HInt HFloat HStr HArr HObj.
  fix IH 1. intros [| b | n | f | s | items | members].
  - exact HNull.
  - apply HBool.
  - apply HInt.
  - apply HFloat.
  - apply HStr.
  - apply HArr. induction items as [|v items IHitems]; constructor.
    + apply IH.
    + exact IHitems.
  - apply HObj. induction members as [|[k v] members IHmembers]; constructor.
    + apply IH.
    + exact IHmembers.
Qed.

Lemma hex_digit_printable (n : N) : printable (hex_digit (n mod 16)) = true.
Proof.
  assert (n mod 16 < 16) as H by by apply N.mod_lt.
  revert H. generalize (n mod 16). intros m Hm.
  unfold hex_digit, printable.
  destruct (N.ltb_spec m 10); apply andb_true_iff;
    split; apply N.leb_le; lia.
Qed.

Lemma unicode_escape_printable (n : N) :
  forallb printable (unicode_escape n) = true.
Proof.
  unfold unicode_escape, hex4. cbn [forallb app py].
  change (forallb printable (py "\u" ++ ?l))
    with (forallb printable l).
  cbn [forallb]. by rewrite !hex_digit_printable.
Qed.

Lemma escape_char_printable (c : N) :
  forallb printable (escape_char c) = true.
Proof.
  unfold escape_char.
  repeat match goal with
         | |- context [if ?c =? ?k then _ else _] =>
             destruct (c =? k); [by vm_compute|]
         end.
  destruct ((32 <=? c) && (c <=? 126)) eqn:E.
  { cbn. unfold printable. by rewrite E. }
  destruct (c <? 65536); [apply unicode_escape_printable|].
  rewrite forallb_app, !unicode_escape_printable. done.
Qed.

Lemma dumps_str_printable (s : pystr) :
  forallb printable (dumps_str s) = true.
Proof.
  unfold dumps_str. rewrite !forallb_app. cbn.
  rewrite andb_true_r. induction s as [|c s IH]; [done|].
  cbn [flat_map]. by rewrite forallb_app, escape_char_printable, IH.
Qed.

Lemma string_of_uint_printable (d : Decimal.uint) :
  forallb printable (py (NilEmpty.string_of_uint d)) = true.
Proof. induction d; try done; exact IHd. Qed.

Lemma dumps_int_printable (n : Z) : forallb printable (dumps_int n) = true.
Proof.
  unfold dumps_int, NilZero.string_of_int.
  destruct (Z.to_int n) as [d|d]; unfold NilZero.string_of_uint;
    destruct d; try done; apply string_of_uint_printable.
Qed.

Lemma join_printable (sep : pystr) (parts : list pystr) :
  forallb printable sep = true →
  Forall (λ part, forallb printable part = true) parts →
  forallb printable (join sep parts) = true.
Proof.
  intros Hsep. induction 1 as [|p ps Hp Hps IH]; [done|].
  destruct ps as [|q ps]; [done|].
  change (join sep (p :: q :: ps)) with (p ++ sep ++ join sep (q :: ps)).
  by rewrite !forallb_app, Hp, Hsep, IH.
Qed.

Lemma replace_from_printable (old new s : pystr) (skip : nat) :
  forallb printable new = true →
  forallb printable s = true →
  forallb printable (replace_from old new skip s) = true.
Proof.
  intros Hnew. revert skip; induction s as [|c s IH]; intros skip; [done|].
  cbn [forallb replace_from]. intros [Hc Hs]%andb_true_iff.
  destruct skip; [|by apply IH].
  destruct (starts_with old (c :: s)).
  - rewrite forallb_app, Hnew. by apply IH.
  - cbn [forallb]. rewrite Hc. by apply IH.
Qed.

(** X19. The JSON text is printable ASCII whatever the tasks hold:
    [json.dumps] escapes every control character, line break and
    character beyond ['~'], and the rewriting of ["</"] adds none, the
    printing of floats being ASCII as Python's is. *)
Theorem tasks_json_is_ascii (tasks_data : json) :
  (∀ f, forallb printable (float_repr f) = true) →
  forallb printable (dumps tasks_data) = true ∧
  forallb printable (tasks_json tasks_data) = true.
Proof.
  intros Hfloat.
  assert (∀ v, forallb printable (dumps v) = true) as Hdumps.
  { induction v as [|[]| |f| | |] using json_nested_ind; try done.
    - apply dumps_int_printable.
    - destruct f as [| [] | |]; try done; apply Hfloat.
    - apply dumps_str_printable.
    - cbn [dumps]. rewrite !forallb_app, join_printable; [done|done|].
      by apply Forall_map.
    - cbn [dumps]. rewrite !forallb_app, join_printable; [done|done|].
      apply Forall_map. eapply Forall_impl; [done|].
      intros [k x] Hx. cbn [snd] in Hx. cbv beta iota zeta.
      by rewrite !forallb_app, dumps_str_printable, Hx. }
  split; [done|]. by apply replace_from_printable.
Qed.

(** ** Undoing the rewriting of the closing sequence *)

Lemma replace_close_head_backslash (s r : pystr) :
  replace_from (py "</") (py "<\/") 0 s = 92 :: r →
  ∃ s', s = 92 :: s' ∧ r = replace_from (py "</") (py "<\/") 0 s'.
Proof.
  change (py "</") with [60; 47]. change (py "<\/") with [60; 92; 47].
  destruct s as [|c s]; [done|]. cbn [replace_from].
  destruct (starts_with [60; 47] (c :: s)); [by cbn|].
  intros [= -> <-]. by eexists.
Qed.

(** Putting ["</"] back for ["<\/"] restores a text that had no ["<\/"]. *)
Lemma starts_with_prefix (p s : pystr) :
  starts_with p s = true ↔ ∃ s', s = p ++ s'.
Proof.
  revert s; induction p as [|x p IH]; intros s; simpl.
  - split; [by exists s|done].
  - destruct s as [|y s]; [split; [done|by intros [? [=]]]|].
    rewrite andb_true_iff, N.eqb_eq, IH. split.
    + intros [-> [s' ->]]. by exists s'.
    + intros [s' [= -> ->]]. split; [done|by exists s'].
Qed.

Lemma replace_close_undo (s : pystr) :
  (contains (py "<\/") s = false →
   replace_from (py "<\/") (py "</") 0
     (replace_from (py "</") (py "<\/") 0 s) = s) ∧
  (contains (py "<\/") (tail s) = false →
   replace_from (py "<\/") (py "</") 0
     (replace_from (py "</") (py "<\/") 1 s) = tail s).
Proof.
  change (py "<\/") with [60; 92; 47]. change (py "</") with [60; 47].
  induction s as [|c s [IH0 IH1]]; [done|]. split.
  - intros Hs.
    assert (starts_with [60; 92; 47] (c :: s) = false
            ∧ contains [60; 92; 47] s = false) as [Hhere Hrest].
    { cbn [contains] in Hs. by apply orb_false_iff in Hs. }
    cbn [replace_from].
    destruct (starts_with [60; 47] (c :: s)) eqn:E.
    + apply starts_with_prefix in E as [s' [= -> ->]].
      change (replace_from [60; 92; 47] [60; 47] 0
                ([60; 92; 47] ++ replace_from [60; 47] [60; 92; 47]
                                   (length [60; 47] - 1) (47 :: s')))
        with (60 :: 47 ::
              replace_from [60; 92; 47] [60; 47] 0
                (replace_from [60; 47] [60; 92; 47] 1 (47 :: s'))).
      rewrite IH1; [done|]. cbn [tail].
      cbn [contains] in Hrest. by apply orb_false_iff in Hrest as [_ ?].
    + cbn [replace_from].
      destruct (starts_with [60; 92; 47]
                  (c :: replace_from [60; 47] [60; 92; 47] 0 s)) eqn:E'.
      * exfalso. apply starts_with_prefix in E' as [r [= -> Er]].
        destruct (replace_close_head_backslash s _ Er) as (s1 & -> & Er1).
        symmetry in Er1.
        destruct (proj2 (proj2 (replace_close_from s1)) r Er1) as [s2 ->].
        by vm_compute in Hhere.
      * f_equal. by apply IH0.
  - intros Hs. cbn [replace_from tail] in *. by apply IH0.
Qed.

(** ** Where ["<\/"] cannot come from *)

(** A text without [<] has no occurrence of a pattern that starts with
    it. *)
Lemma contains_skip (q a b : pystr) :
  forallb (λ c, negb (c =? 60)) a = true →
  contains (60 :: q) (a ++ b) = contains (60 :: q) b.
Proof.
  induction a as [|c a IH]; [done|]. cbn [forallb app].
  intros [Hc Ha]%andb_true_iff. cbn [contains starts_with].
  rewrite N.eqb_sym. apply negb_true_iff in Hc. rewrite Hc. by apply IH.
Qed.

Lemma hex_digit_not_lt (n : N) : negb (hex_digit (n mod 16) =? 60) = true.
Proof.
  assert (n mod 16 < 16) as H by by apply N.mod_lt.
  revert H. generalize (n mod 16). intros m Hm.
  apply negb_true_iff, N.eqb_neq. unfold hex_digit.
  destruct (N.ltb_spec m 10); lia.
Qed.

Lemma unicode_escape_not_lt (n : N) :
  forallb (λ c, negb (c =? 60)) (unicode_escape n) = true.
Proof.
  unfold unicode_escape, hex4.
  change (py "\u" ++ ?l) with (92 :: 117 :: l).
  cbn [forallb]. by rewrite !hex_digit_not_lt.
Qed.

(** What [escape_char] returns never puts [\/] at the front of a text, and
    has [<] only as the character [<] itself. *)
Lemma escape_char_front (c : N) (rest : pystr) :
  starts_with [92; 47] (escape_char c ++ rest) = false ∧
  (c ≠ 60 → forallb (λ x, negb (x =? 60)) (escape_char c) = true).
Proof.
  unfold escape_char.
  repeat match goal with
         | |- context [if ?c =? ?k then _ else _] =>
             destruct (N.eqb_spec c k) as [->|?]; [by vm_compute|]
         end.
  destruct ((32 <=? c) && (c <=? 126)).
  { split.
    - cbn [app starts_with]. destruct (N.eqb_spec 92 c); [congruence|done].
    - intros Hc. cbn [forallb].
      destruct (N.eqb_spec c 60); [congruence|done]. }
  destruct (c <? 65536).
  - split; [done|]. intros _. apply unicode_escape_not_lt.
  - split; [done|]. intros _.
    by rewrite forallb_app, !unicode_escape_not_lt.
Qed.

Lemma escaped_body (s : pystr) :
  contains (py "<\/") (flat_map escape_char s ++ dquote) = false ∧
  starts_with [92; 47] (flat_map escape_char s ++ dquote) = false.
Proof.
  change (py "<\/") with [60; 92; 47].
  induction s as [|c s [IHc IHs]]; [done|].
  cbn [flat_map]. rewrite <- app_assoc.
  destruct (escape_char_front c (flat_map escape_char s ++ dquote))
    as [Hfront Hlt].
  split; [|done].
  destruct (decide (c = 60)) as [->|Hc].
  - set (body := flat_map escape_char s ++ dquote) in *.
    change (contains [60; 92; 47] (escape_char 60 ++ body))
      with ((60 =? 60) && starts_with [92; 47] body
            || contains [60; 92; 47] body).
    by rewrite IHs, IHc.
  - rewrite contains_skip by by apply Hlt. done.
Qed.

Lemma dumps_str_no_pattern (s : pystr) :
  contains (py "<\/") (dumps_str s) = false.
Proof.
  unfold dumps_str. change (dquote ++ ?l) with ([] ++ 34 :: l).
  rewrite contains_sep by by vm_compute.
  by rewrite (proj1 (escaped_body s)).
Qed.

Lemma string_of_uint_not_lt (d : Decimal.uint) :
  forallb (λ c, negb (c =? 60)) (py (NilEmpty.string_of_uint d)) = true.
Proof. induction d; try done; exact IHd. Qed.

Lemma dumps_int_no_pattern (n : Z) :
  contains (py "<\/") (dumps_int n) = false.
Proof.
  change (py "<\/") with [60; 92; 47].
  rewrite <- (app_nil_r (dumps_int n)). rewrite contains_skip; [done|].
  unfold dumps_int, NilZero.string_of_int.
  destruct (Z.to_int n) as [d|d]; unfold NilZero.string_of_uint;
    destruct d; try done; apply string_of_uint_not_lt.
Qed.

Lemma join_no_pattern (parts : list pystr) :
  Forall (λ part, contains (py "<\/") part = false) parts →
  contains (py "<\/") (join (py ", ") parts) = false.
Proof.
  induction 1 as [|p ps Hp Hps IH]; [done|].
  destruct ps as [|q ps]; [done|].
  change (join (py ", ") (p :: q :: ps))
    with (p ++ 44 :: ([] ++ 32 :: join (py ", ") (q :: ps))).
  rewrite !contains_sep by by vm_compute. by rewrite Hp, IH.
Qed.

Lemma dumps_no_pattern (v : json) :
  (∀ f, contains (py "<\/") (float_repr f) = false) →
  contains (py "<\/") (dumps v) = false.
Proof.
  intros Hfloat.
  induction v as [|[]| |f| | |] using json_nested_ind; try done.
  - apply dumps_int_no_pattern.
  - destruct f as [| [] | |]; try done; apply Hfloat.
  - apply dumps_str_no_pattern.
  - cbn [dumps].
    change (py "[" ++ ?l ++ py "]") with ([] ++ 91 :: (l ++ 93 :: [])).
    rewrite !contains_sep by by vm_compute.
    rewrite join_no_pattern; [done|]. by apply Forall_map.
  - cbn [dumps].
    change (py "{" ++ ?l ++ py "}") with ([] ++ 123 :: (l ++ 125 :: [])).
    rewrite !contains_sep by by vm_compute.
    rewrite join_no_pattern; [done|]. apply Forall_map.
    eapply Forall_impl; [done|]. intros [k x] Hx.
    cbn [snd] in Hx. cbv beta iota zeta.
    change (dumps_str k ++ py ": " ++ dumps x)
      with (dumps_str k ++ 58 :: ([] ++ 32 :: dumps x)).
    rewrite !contains_sep by by vm_compute.
    by rewrite dumps_str_no_pattern, Hx.
Qed.

(** X20. The rewriting of ["</"] loses nothing: putting ["</"] back for
    every ["<\/"] in [tasks_json] gives the text [json.dumps] produced, for
    [json.dumps] never writes [<], a backslash and [/] in a row (a
    backslash of its own is followed by an escape letter, one of the text
    is doubled), the printing of floats having no such sequence either. *)
Theorem tasks_json_undone (tasks_data : json) :
  (∀ f, contains (py "<\/") (float_repr f) = false) →
  str_replace (py "<\/") (py "</") (tasks_json tasks_data)
  = dumps tasks_data.
Proof.
  intros Hfloat. apply replace_close_undo. by apply dumps_no_pattern.
Qed.

(** * The widget of a response and the resource *)

(** X21. The widget in a response is the resource: a response without the
    error flag carries, under the URI and the MIME type of the listed
    resource, the page that a read of this resource returns right after the
    call, [done] being a Boolean when it was given. *)
Theorem widget_is_the_resource env tool_name arguments d b :
  dict_get (py "done") (JBool true) (arguments_or_empty arguments) = JBool b →
  isError (_handle_call_tool env tool_name arguments d).1 = false →
  ∃ meta,
    _meta (_handle_call_tool env tool_name arguments d).1 = Some meta ∧
    base_meta meta = BASE_WIDGET_META ∧
    uri (openai_widget meta) ∈ List.map Resource.uri _list_resources ∧
    mimeType (openai_widget meta)
    ∈ List.map Resource.mimeType _list_resources ∧
    (_handle_read_resource (uri (openai_widget meta))
       (_handle_call_tool env tool_name arguments d).2).1
    = OK {| contents := [html (openai_widget meta)]; error := None |}.
Proof.
  intros Hb Hr.
  destruct (success_stored env tool_name arguments d b Hb Hr)
    as (tasks1 & Hpayload & Hd').
  destruct (call_outcome env tool_name arguments d)
    as [(m & Hm & _)|[(tasks & tasks' & m & meta & _ & Hw & Hmeta & _)
                     |(tasks & i & task & e & _ & _ & _ & _ & _ & Hm & _)]].
  { by rewrite Hm in Hr. }
  2:{ by rewrite Hm in Hr. }
  rewrite Hw in Hpayload. cbn [structuredContent widget_result] in Hpayload.
  apply (inj Some) in Hpayload.
  exists meta. rewrite Hw. cbn [_meta].
  unfold _meta_with_widget, _embedded_widget_resource in Hmeta.
  destruct (_render_widget_html (tasks_data_of tasks')) as [page|] eqn:Hpage;
    [|done].
  injection Hmeta as <-.
  cbn [base_meta openai_widget uri mimeType html].
  split_and!; [done..|apply list_elem_of_here|apply list_elem_of_here|].
  rewrite _handle_read_resource_template, Hd'. cbn [fst bindR].
  by rewrite <- Hpayload, Hpage.
Qed.

(** * When a call succeeds *)


End TodoApp.

(** * The model at concrete inputs *)

(** The dispatcher and the loader with the parameters fixed. *)
Local Abbreviation call :=
  (_handle_call_tool default_version plain_float_repr strict_bool
     int_str_limit).
Local Abbreviation load := (stored_tasks strict_bool).



Lemma load_one_task_edited : load one_task_edited = OK [milk].
Proof. vm_compute. reflexivity. Qed.

(** The scenario of the interface description: an empty store, a task is
    added, marked done, and listed. *)
Example buy_milk_scenario :
  let d0 := init_store NoFile in
  let '(r1, d1) := call morning (py "add_task")
                     (Some [(py "text", JStr (py "Buy milk"))]) d0 in
  let '(r2, d2) := call evening (py "mark_done")
                     (Some [(py "task_id", JStr (uuid4 morning))]) d1 in
  let '(r3, d3) := call evening (py "get_tasks") None d2 in
  let added :=
    Task.mk (uuid4 morning) (py "Buy milk") (JBool false)
      (py "2025-03-04T08:15:00.120000Z") None in
  structuredContent r1 = Some (tasks_data_of [added]) ∧
  structuredContent r2 = Some (tasks_data_of [set_done (JBool true) added]) ∧
  structuredContent r3 = Some (tasks_data_of [set_done (JBool true) added]) ∧
  isError r1 = false ∧ isError r2 = false ∧ isError r3 = false ∧ d3 = d2.
Proof. vm_compute. by split_and!. Qed.

(** An empty text on an empty store, and an id that is not there. *)
Example rejected_calls_scenario :
  let d0 := init_store NoFile in
  call morning (py "add_task") (Some [(py "text", JStr [])]) d0
  = (error_result (Text (py "Error: Task text cannot be empty")), d0) ∧
  call morning (py "mark_done")
    (Some [(py "task_id", JStr (py "nonexistent"))]) d0
  = (error_result (TaskNotFound (JStr (py "nonexistent"))), d0).
Proof. vm_compute. by split. Qed.

(** An integer that [json.dump] refuses as [done]: the call fails and the
    file is left without a task list. *)
Example unwritable_done_scenario :
  load one_task = OK [milk] ∧
  call evening (py "mark_done") milk_huge one_task
  = (error_result (Failure ValueError), Garbled) ∧
  load Garbled = Raise JSONDecodeError.
Proof. vm_compute. by split_and!. Qed.

(** A text of the task data that would close the script element. *)
Example closing_tag_is_escaped :
  tasks_json plain_float_repr
    (tasks_data_of
       [Task.mk (py "a") (py "</script>") (JBool false) (py "t") None])
  = py "{" ++ quoted "tasks" ++ py ": [{" ++ quoted "id" ++ py ": "
    ++ quoted "a" ++ py ", " ++ quoted "text" ++ py ": "
    ++ quoted "<\/script>" ++ py ", " ++ quoted "done" ++ py ": false, "
    ++ quoted "created_at" ++ py ": " ++ quoted "t" ++ py ", "
    ++ quoted "due_date" ++ py ": null}]}".
Proof. vm_compute. reflexivity. Qed.

(** With the default asset version the formatted template has no
    [{{TASKS_JSON}}] left in it, only [{TASKS_JSON}]: [format] has turned
    the doubled braces into single ones, the replacement finds nothing, and
    the page is the same for every task list. *)
Lemma default_page_ignores_tasks :
  ∃ page,
    (∀ float_repr tasks_data,
       _render_widget_html default_version float_repr tasks_data = OK page) ∧
    contains (py "{TASKS_JSON}") page = true ∧
    contains TASKS_JSON_placeholder page = false.
Proof.
  eexists. split_and!.
  - intros float_repr tasks_data. unfold _render_widget_html. cbv zeta.
    generalize (tasks_json float_repr tasks_data). intros tasks_json.
    vm_compute. reflexivity.
  - vm_compute. reflexivity.
  - vm_compute. reflexivity.
Qed.

(** * The properties at concrete inputs *)


Lemma add_task_blank_rejected_witness :
  forallb is_space [32; 9; 160; 8195; 10] = true ∧
  (call morning (py "add_task") blank_text one_task).1
  = error_result (Text (py "Error: Task text cannot be empty")) ∧
  isError (call morning (py "add_task") blank_text one_task).1 = true ∧
  structuredContent (call morning (py "add_task") blank_text one_task).1
  = None ∧
  (call morning (py "add_task") blank_text one_task).2 = one_task.
Proof.
  split; [vm_compute; reflexivity|].
  apply (add_task_blank_rejected default_version plain_float_repr
           strict_bool int_str_limit
           morning blank_text one_task [32; 9; 160; 8195; 10]).
  - right. vm_compute. reflexivity.
  - vm_compute. reflexivity.
  - apply surjective_pairing.
Defined.

Lemma mark_done_unknown_id_witness :
  (∃ m, (call evening (py "mark_done") None one_task).1 = error_result m) ∧
  isError (call evening (py "mark_done") None one_task).1 = true ∧
  structuredContent (call evening (py "mark_done") None one_task).1 = None ∧
  (call evening (py "mark_done") None one_task).2 = one_task ∧
  (is_OK (load one_task) = true →
   (call evening (py "mark_done") None one_task).1
   = error_result
       (TaskNotFound (dict_get (py "task_id") JNull (arguments_or_empty None)))).
Proof.
  apply (mark_done_unknown_id default_version plain_float_repr
           strict_bool int_str_limit
           evening None one_task).
  - intros tasks H. vm_compute in H. injection H as <-.
    repeat constructor. vm_compute. discriminate.
  - apply surjective_pairing.
Defined.

Lemma mark_done_round_trip_witness :
  ∃ i task task',
    first_match (JStr (Task.id milk)) [milk] = Some i ∧
    [milk] !! i = Some task ∧
    Task.id task = Task.id milk ∧
    isError (call morning (py "mark_done") milk_done one_task).1 = false ∧
    isError
      (call evening (py "mark_done") milk_undone
         (call morning (py "mark_done") milk_done one_task).2).1 = false ∧
    load
      (call evening (py "mark_done") milk_undone
         (call morning (py "mark_done") milk_done one_task).2).2
    = OK (<[i := task']> [milk]) ∧
    Task.done task' = JBool false ∧
    Task.id task' = Task.id task ∧
    Task.text task' = Task.text task ∧
    Task.created_at task' = Task.created_at task ∧
    Task.due_date task' = Task.due_date task ∧
    (Task.done task = JBool false →
     load
       (call evening (py "mark_done") milk_undone
          (call morning (py "mark_done") milk_done one_task).2).2
     = OK [milk]).
Proof.
  apply (mark_done_round_trip default_version plain_float_repr
           strict_bool int_str_limit
           morning evening one_task [milk] (Task.id milk)
           (call morning (py "mark_done") milk_done one_task).1
           (call morning (py "mark_done") milk_done one_task).2
           (call evening (py "mark_done") milk_undone
              (call morning (py "mark_done") milk_done one_task).2).1
           (call evening (py "mark_done") milk_undone
              (call morning (py "mark_done") milk_done one_task).2).2).
  - vm_compute. reflexivity.
  - vm_compute. apply list_elem_of_here.
  - apply surjective_pairing.
  - apply surjective_pairing.
Defined.

Lemma store_invariant_preserved_witness :
  load (init_store NoFile) = OK [] ∧
  disk_invariant strict_bool (init_store NoFile) ∧
  (∀ tasks',
     load (call morning (py "add_task") walk_the_dog one_task).2 = OK tasks' →
     Forall (λ task, Task.text task ≠ []) tasks') ∧
  disk_invariant strict_bool
    (call morning (py "add_task") walk_the_dog one_task).2.
Proof.
  assert (disk_invariant strict_bool one_task) as Hinv.
  { intros tasks H. vm_compute in H. injection H as <-. split.
    - apply NoDup_singleton.
    - repeat constructor. vm_compute. discriminate. }
  destruct (store_invariant_preserved default_version plain_float_repr
              strict_bool int_str_limit morning (py "add_task") walk_the_dog
              one_task) as (H1 & H2 & H3 & H4).
  - intros tasks H. by apply Hinv.
  - split_and!; [done..|]. apply H4; [done|].
    intros tasks H. vm_compute in H. injection H as <-.
    vm_compute. intros [[=]|[]%elem_of_nil]%elem_of_cons.
Defined.

Lemma widget_html_deterministic_witness :
  ∃ page,
    _render_widget_html default_version plain_float_repr
      (tasks_data_of [milk]) = OK page ∧
    (_handle_read_resource default_version plain_float_repr strict_bool
       TEMPLATE_URI one_task).1
    = OK {| contents := [page]; error := None |} ∧
    (_handle_read_resource default_version plain_float_repr strict_bool
       TEMPLATE_URI one_task_edited).1
    = OK {| contents := [page]; error := None |} ∧
    (html ∘ openai_widget) <$>
      _meta (call morning (py "get_tasks") None one_task).1
    = Some page ∧
    (html ∘ openai_widget) <$>
      _meta (call evening (py "get_tasks") walk_the_dog one_task_edited).1
    = Some page.
Proof.
  apply (widget_html_deterministic default_version plain_float_repr
           strict_bool int_str_limit morning evening None walk_the_dog
           one_task one_task_edited [milk]).
  - vm_compute. reflexivity.
  - vm_compute. reflexivity.
Defined.


(** C5, as stated, fails: [add_task] stores the id [uuid4] returns without
    comparing it with the stored ones, so an id returned a second time is
    stored twice. *)
Lemma add_task_can_repeat_an_id :
  ¬ (∀ env tool_name arguments d,
       disk_invariant strict_bool d →
       disk_invariant strict_bool (call env tool_name arguments d).2).
Proof.
  intros H.
  destruct (H repeated_id (py "add_task") walk_the_dog one_task) with
    (tasks := [milk; Task.mk (Task.id milk) (py "Walk the dog") (JBool false)
                       (py "2025-03-05T07:30:00.000000Z") None])
    as [Hnodup _].
  - intros tasks Hd. vm_compute in Hd. injection Hd as <-. split.
    + apply NoDup_singleton.
    + repeat constructor. vm_compute. discriminate.
  - vm_compute. reflexivity.
  - apply NoDup_cons in Hnodup as [Hnotin _]. apply Hnotin.
    apply list_elem_of_here.
Qed.


(** C7, as stated, fails: the document [{}] has no [tasks] field and is
    read as the empty task list. *)
Lemma load_accepts_missing_tasks_field :
  ¬ (∀ (lax_bool : json → option bool) (members : dict),
       dict_lookup (py "tasks") members = None →
       ∃ e, stored_tasks lax_bool (Doc (JObj members)) = Raise e).
Proof.
  intros H. destruct (H strict_bool [] eq_refl) as [e He].
  vm_compute in He. discriminate.
Qed.

(** * The further properties at concrete inputs *)


Lemma unreadable_store_stays_witness :
  isError (call morning (py "add_task") walk_the_dog Garbled).1 = true ∧
  (call morning (py "add_task") walk_the_dog Garbled).2 = Garbled.
Proof.
  apply (unreadable_store_stays default_version plain_float_repr
           strict_bool int_str_limit
           morning (py "add_task") walk_the_dog Garbled JSONDecodeError).
  vm_compute. reflexivity.
Defined.


Lemma tasks_are_kept_witness :
  ∃ kept added,
    load (call morning (py "add_task") walk_the_dog one_task).2
    = OK (kept ++ added) ∧
    (length added ≤ 1)%nat ∧ Forall2 same_fields [milk] kept.
Proof.
  apply (tasks_are_kept default_version plain_float_repr strict_bool
           int_str_limit morning (py "add_task") walk_the_dog one_task
           [milk] true).
  - vm_compute. reflexivity.
  - vm_compute. reflexivity.
Defined.

Lemma mark_done_after_add_witness :
  ∃ new_task,
    load (call morning (py "add_task") walk_the_dog one_task).2
    = OK ([milk] ++ [new_task]) ∧
    Task.id new_task = uuid4 morning ∧
    isError
      (call evening (py "mark_done")
         (Some [(py "task_id", JStr (uuid4 morning)); (py "done", JBool true)])
         (call morning (py "add_task") walk_the_dog one_task).2).1 = false ∧
    load
      (call evening (py "mark_done")
         (Some [(py "task_id", JStr (uuid4 morning)); (py "done", JBool true)])
         (call morning (py "add_task") walk_the_dog one_task).2).2
    = OK ([milk] ++ [set_done (JBool true) new_task]).
Proof.
  apply (mark_done_after_add default_version plain_float_repr
           strict_bool int_str_limit
           morning walk_the_dog one_task [milk] evening true).
  - vm_compute. reflexivity.
  - vm_compute. intros [[=]|[]%elem_of_nil]%elem_of_cons.
  - vm_compute. reflexivity.
Defined.


Lemma add_task_text_not_a_string_witness :
  call morning (py "add_task") numeric_text one_task
  = (error_result (Failure AttributeError), one_task).
Proof.
  apply (add_task_text_not_a_string default_version plain_float_repr
           strict_bool int_str_limit morning numeric_text one_task (JInt 5)).
  - vm_compute. reflexivity.
  - vm_compute. reflexivity.
Defined.


Lemma required_arguments_enforced_witness :
  isError (call morning (py "mark_done") walk_the_dog one_task).1 = true ∧
  (call morning (py "mark_done") walk_the_dog one_task).2 = one_task.
Proof.
  apply (required_arguments_enforced default_version plain_float_repr
           strict_bool int_str_limit
           (Tool.mk (py "mark_done") (py "Mark Task Done")
              (py "Marks a task as done or undone by its ID")
              (JObj [(py "type", JStr (py "object"));
                     (py "properties",
                      JObj [(py "task_id",
                             JObj [(py "type", JStr (py "string"));
                                   (py "description",
                                    JStr (py "The unique ID of the task"))]);
                            (py "done",
                             JObj [(py "type", JStr (py "boolean"));
                                   (py "description",
                                    JStr (py "Whether to mark as done (true) or undone (false)"))])]);
                     (py "required", JArr [JStr (py "task_id")]);
                     (py "additionalProperties", JBool false)])
              _tool_meta)
           (py "task_id") morning walk_the_dog one_task).
  - do 2 apply list_elem_of_further. apply list_elem_of_here.
  - vm_compute. apply list_elem_of_here.
  - vm_compute. reflexivity.
Defined.

Lemma unknown_arguments_ignored_witness :
  call morning (py "add_task")
    (Some ((py "priority", JInt 1) :: with_priority)) one_task
  = call morning (py "add_task") (Some with_priority) one_task.
Proof.
  apply (unknown_arguments_ignored default_version plain_float_repr
           strict_bool int_str_limit morning (py "add_task") (py "priority")
           (JInt 1)
           with_priority one_task).
  vm_compute.
  intros [[=]|[[=]|[[=]|[[=]|[]%elem_of_nil]%elem_of_cons]%elem_of_cons
         ]%elem_of_cons]%elem_of_cons.
Defined.

Lemma page_ignores_task_list_witness :
  _render_widget_html default_version plain_float_repr (tasks_data_of [milk])
  = OK (join default_version page_parts) ∧
  contains (py "{TASKS_JSON}") (join default_version page_parts) = true.
Proof.
  apply (page_ignores_task_list default_version plain_float_repr
           (tasks_data_of [milk])).
  vm_compute. reflexivity.
Defined.

Lemma tasks_json_is_ascii_witness :
  forallb printable (dumps plain_float_repr (tasks_data_of [milk])) = true ∧
  forallb printable (tasks_json plain_float_repr (tasks_data_of [milk])) = true.
Proof.
  apply (tasks_json_is_ascii plain_float_repr (tasks_data_of [milk])).
  intros f. vm_compute. reflexivity.
Defined.

Lemma tasks_json_undone_witness :
  str_replace (py "<\/") (py "</")
    (tasks_json plain_float_repr
       (tasks_data_of
          [Task.mk (py "a") (py "</script>") (JBool false) (py "t") None]))
  = dumps plain_float_repr
      (tasks_data_of
         [Task.mk (py "a") (py "</script>") (JBool false) (py "t") None]).
Proof.
  apply (tasks_json_undone plain_float_repr).
  intros f. vm_compute. reflexivity.
Defined.

Lemma widget_is_the_resource_witness :
  ∃ meta,
    _meta (call morning (py "add_task") walk_the_dog one_task).1 = Some meta ∧
    base_meta meta = BASE_WIDGET_META ∧
    uri (openai_widget meta) ∈ List.map Resource.uri _list_resources ∧
    mimeType (openai_widget meta)
    ∈ List.map Resource.mimeType _list_resources ∧
    (_handle_read_resource default_version plain_float_repr strict_bool
       (uri (openai_widget meta))
       (call morning (py "add_task") walk_the_dog one_task).2).1
    = OK {| contents := [html (openai_widget meta)]; error := None |}.
Proof.
  apply (widget_is_the_resource default_version plain_float_repr
           strict_bool int_str_limit
           morning (py "add_task") walk_the_dog one_task true).
  - vm_compute. reflexivity.
  - vm_compute. reflexivity.
Defined.
